(** * Canva MCP server: the OAuth2 (PKCE) session and token lifecycle

    A shallow embedding of [src/server/server.ts]: the two in-memory maps
    [authSessions] and [pendingAuthStates], the PKCE helpers, the token
    endpoint client, [getValidAccessToken], [canvaApiRequest], the
    [CallToolRequestSchema] handler with its authentication gate and
    [handleAuthCallback], followed by the properties of the lifecycle.

    Handler code runs in a monad that passes the server's world along
    and may throw. Each handler is followed from its first statement to
    its last without another handler running in between its awaits.
    Left out: the SSE transport and its [sessions] map, the widget
    resources, [console.error], the markup of the HTML pages and the
    formatting of tool results. *)

From Stdlib Require Import ZArith Ascii String List Lia Sorted.
From stdpp Require Import gmap strings list fin_maps pretty.

Local Open Scope Z_scope.

(** ** Node runtime pieces the server relies on

    [Buffer]s are lists of bytes (each in [0, 256)), strings are byte
    strings (UTF-8 code units). *)

Module Node.

Definition Buffer := list Z.

Definition byteOf (c : ascii) : Z := Z.of_N (N_of_ascii c).
Definition charOf (b : Z) : ascii := ascii_of_N (Z.to_N (b mod 256)).

Definition bytesOf (s : string) : Buffer := map byteOf (list_ascii_of_string s).

Definition pick (alphabet : string) (i : Z) : ascii :=
  default "?"%char (String.get (Z.to_nat i) alphabet).

(** [buf.toString("hex")] *)
Definition hexLower : string := "0123456789abcdef".
Definition hexUpper : string := "0123456789ABCDEF".

Definition toHex (buf : Buffer) : string :=
  fold_right
    (fun b acc => String (pick hexLower (b / 16)) (String (pick hexLower (b mod 16)) acc))
    EmptyString buf.

(** [buf.toString("base64url")]: RFC 4648 section 5, without padding. *)
Definition base64urlAlphabet : string :=
  "ABCDEFGHIJKLMNOPQRSTUVWXYZabcdefghijklmnopqrstuvwxyz0123456789-_".

Definition sextet (i : Z) : ascii := pick base64urlAlphabet i.

Fixpoint toBase64url (buf : Buffer) : string :=
  match buf with
  | [] => EmptyString
  | [x] =>
      String (sextet (x / 4)) (String (sextet ((x mod 4) * 16)) EmptyString)
  | [x; y] =>
      String (sextet (x / 4))
        (String (sextet ((x mod 4) * 16 + y / 16))
           (String (sextet ((y mod 16) * 4)) EmptyString))
  | x :: y :: z :: rest =>
      String (sextet (x / 4))
        (String (sextet ((x mod 4) * 16 + y / 16))
           (String (sextet ((y mod 16) * 4 + z / 64))
              (String (sextet (z mod 64)) (toBase64url rest))))
  end.

(** *** SHA-256 (FIPS 180-4), as computed by [crypto.createHash("sha256")] *)

Definition u32 (x : Z) : Z := x mod 2 ^ 32.
Definition add32 (x y : Z) : Z := u32 (x + y).
Definition rotr (n x : Z) : Z := Z.lor (Z.shiftr x n) (u32 (Z.shiftl x (32 - n))).
Definition not32 (x : Z) : Z := Z.lxor x 0xFFFFFFFF.

Definition choose (x y z : Z) : Z := Z.lxor (Z.land x y) (Z.land (not32 x) z).
Definition majority (x y z : Z) : Z :=
  Z.lxor (Z.lxor (Z.land x y) (Z.land x z)) (Z.land y z).
Definition bigSigma0 (x : Z) : Z := Z.lxor (Z.lxor (rotr 2 x) (rotr 13 x)) (rotr 22 x).
Definition bigSigma1 (x : Z) : Z := Z.lxor (Z.lxor (rotr 6 x) (rotr 11 x)) (rotr 25 x).
Definition smallSigma0 (x : Z) : Z := Z.lxor (Z.lxor (rotr 7 x) (rotr 18 x)) (Z.shiftr x 3).
Definition smallSigma1 (x : Z) : Z := Z.lxor (Z.lxor (rotr 17 x) (rotr 19 x)) (Z.shiftr x 10).

Definition roundConstants : list Z :=
  [ 0x428A2F98; 0x71374491; 0xB5C0FBCF; 0xE9B5DBA5;
    0x3956C25B; 0x59F111F1; 0x923F82A4; 0xAB1C5ED5;
    0xD807AA98; 0x12835B01; 0x243185BE; 0x550C7DC3;
    0x72BE5D74; 0x80DEB1FE; 0x9BDC06A7; 0xC19BF174;
    0xE49B69C1; 0xEFBE4786; 0x0FC19DC6; 0x240CA1CC;
    0x2DE92C6F; 0x4A7484AA; 0x5CB0A9DC; 0x76F988DA;
    0x983E5152; 0xA831C66D; 0xB00327C8; 0xBF597FC7;
    0xC6E00BF3; 0xD5A79147; 0x06CA6351; 0x14292967;
    0x27B70A85; 0x2E1B2138; 0x4D2C6DFC; 0x53380D13;
    0x650A7354; 0x766A0ABB; 0x81C2C92E; 0x92722C85;
    0xA2BFE8A1; 0xA81A664B; 0xC24B8B70; 0xC76C51A3;
    0xD192E819; 0xD6990624; 0xF40E3585; 0x106AA070;
    0x19A4C116; 0x1E376C08; 0x2748774C; 0x34B0BCB5;
    0x391C0CB3; 0x4ED8AA4A; 0x5B9CCA4F; 0x682E6FF3;
    0x748F82EE; 0x78A5636F; 0x84C87814; 0x8CC70208;
    0x90BEFFFA; 0xA4506CEB; 0xBEF9A3F7; 0xC67178F2 ].

Definition initialHash : list Z :=
  [ 0x6A09E667; 0xBB67AE85; 0x3C6EF372; 0xA54FF53A;
    0x510E527F; 0x9B05688C; 0x1F83D9AB; 0x5BE0CD19 ].

(** Big-endian bytes of a word, most significant first. *)
Fixpoint bigEndian (width : nat) (x : Z) : Buffer :=
  match width with
  | O => []
  | S k => (Z.shiftr x (8 * Z.of_nat k)) mod 256 :: bigEndian k x
  end.

Definition fromBigEndian (bs : Buffer) : Z :=
  fold_left (fun acc b => acc * 256 + b) bs 0.

Definition padMessage (msg : Buffer) : Buffer :=
  let len := Z.of_nat (length msg) in
  msg ++ [0x80] ++ repeat 0 (Z.to_nat ((55 - len) mod 64)) ++ bigEndian 8 (8 * len).

Fixpoint groupsOf (fuel size : nat) (xs : Buffer) : list Buffer :=
  match fuel, xs with
  | O, _ | _, [] => []
  | S k, _ => firstn size xs :: groupsOf k size (skipn size xs)
  end.

Definition wordsOf (block : Buffer) : list Z :=
  map fromBigEndian (groupsOf 16 4 block).

Definition at_ (ws : list Z) (i : nat) : Z := nth i ws 0.

Fixpoint extendSchedule (n : nat) (ws : list Z) : list Z :=
  match n with
  | O => ws
  | S k =>
      let t := length ws in
      let next :=
        add32 (add32 (smallSigma1 (at_ ws (t - 2))) (at_ ws (t - 7)))
              (add32 (smallSigma0 (at_ ws (t - 15))) (at_ ws (t - 16))) in
      extendSchedule k (ws ++ [next])
  end.

Definition round (state : list Z) (kw : Z * Z) : list Z :=
  match state with
  | [a; b; c; d; e; f; g; h] =>
      let t1 := add32 (add32 (add32 h (bigSigma1 e)) (add32 (choose e f g) kw.1)) kw.2 in
      let t2 := add32 (bigSigma0 a) (majority a b c) in
      [add32 t1 t2; a; b; c; add32 d t1; e; f; g]
  | _ => state
  end.

Definition compress (hash : list Z) (block : Buffer) : list Z :=
  let schedule := extendSchedule 48 (wordsOf block) in
  let final := fold_left round (combine roundConstants schedule) hash in
  map (fun p : Z * Z => add32 p.1 p.2) (combine hash final).

Definition sha256 (msg : Buffer) : Buffer :=
  let padded := padMessage msg in
  let blocks := groupsOf (length padded) 64 padded in
  flat_map (bigEndian 4) (fold_left compress blocks initialHash).

(** *** [URLSearchParams.prototype.toString]: the
    application/x-www-form-urlencoded serializer of the URL standard *)

Definition isUnreserved (b : Z) : bool :=
  ((48 <=? b) && (b <=? 57)) || ((65 <=? b) && (b <=? 90)) || ((97 <=? b) && (b <=? 122))
  || (b =? 42) || (b =? 45) || (b =? 46) || (b =? 95).

Definition formEncodeByte (b : Z) : string :=
  if isUnreserved b then String (charOf b) EmptyString
  else if b =? 32 then "+"
  else String "%"%char (String (pick hexUpper (b / 16)) (String (pick hexUpper (b mod 16)) EmptyString)).

Definition formEncode (s : string) : string :=
  fold_right (fun b acc => formEncodeByte b +:+ acc) EmptyString (bytesOf s).

Definition URLSearchParams := list (string * string).

Fixpoint joinWith (sep : string) (parts : list string) : string :=
  match parts with
  | [] => EmptyString
  | [p] => p
  | p :: rest => p +:+ sep +:+ joinWith sep rest
  end.

Definition paramsToString (params : URLSearchParams) : string :=
  joinWith "&" (map (fun kv : string * string => formEncode kv.1 +:+ "=" +:+ formEncode kv.2) params).

End Node.

(** ** Data model *)

(** A JavaScript evaluation either returns or throws an [Error]; the
    message is what the server ever looks at. *)
Inductive Result (A : Type) : Type :=
| Ok (value : A)
| Throw (message : string).
Arguments Ok {A} value.
Arguments Throw {A} message.

(** JSON values (numbers restricted to integers). *)
#[local] Unset Elimination Schemes.
Inductive Json : Type :=
| JNull
| JBool (b : bool)
| JNumber (n : Z)
| JString (s : string)
| JArray (items : list Json)
| JObject (members : list (string * Json)).
#[local] Set Elimination Schemes.

(** JavaScript truthiness of an optional value ([None] is [undefined]). *)
Definition truthy (v : option Json) : bool :=
  match v with
  | None | Some JNull | Some (JBool false) | Some (JNumber 0) | Some (JString EmptyString) => false
  | Some _ => true
  end.

(** The entries of [authSessions]. [refreshToken] is [None] when it holds
    the JavaScript [undefined] that [tokenData.refresh_token] reads from
    a token response without that member. *)
Record Session : Type := {
  accessToken : string;
  refreshToken : option string;
  expiresAt : Z
}.

(** The entries of [pendingAuthStates]. *)
Record PendingAuth : Type := {
  sessionId : string;
  createdAt : Z;
  codeVerifier : string
}.

(** The JSON body of a token endpoint response. *)
Record TokenData : Type := {
  access_token : string;
  refresh_token : option string;
  expires_in : Z
}.

(** What [fetch] is called with. *)
Inductive Body : Type :=
| NoBody
| FormBody (params : Node.URLSearchParams)
| JsonBody (value : Json).

Record Request : Type := {
  url : string;
  method : string;
  headers : list (string * string);
  body : Body
}.

(** What [fetch] resolves to: [text] is [await response.text()], [json]
    is [await response.json()], which throws on a body that is not JSON. *)
Record Response (J : Type) : Type := {
  status : Z;
  statusText : string;
  text : string;
  json : Result J
}.
Arguments status {J} _.
Arguments statusText {J} _.
Arguments text {J} _.
Arguments json {J} _.

Definition ok {J} (response : Response J) : bool :=
  (200 <=? status response) && (status response <=? 299).

(** The outside world's answer to one [fetch]: the promise is rejected
    (no connection) or fulfilled, [elapsed] milliseconds later. *)
Inductive Settled (J : Type) : Type :=
| Rejected (reason : string)
| Fulfilled (response : Response J).
Arguments Rejected {J} reason.
Arguments Fulfilled {J} response.

Record Reply (J : Type) : Type := {
  elapsed : Z;
  settled : Settled J
}.
Arguments elapsed {J} _.
Arguments settled {J} _.

(** The server's two maps and its environment: the clock read by
    [Date.now()], the bytes [crypto.randomBytes] will hand out, the
    replies the token endpoint and the Canva REST API will give to the
    coming requests, and the requests handed to [fetch] so far (oldest
    first). *)
Record World : Type := {
  authSessions : gmap string Session;
  pendingAuthStates : gmap string PendingAuth;
  now : Z;
  entropy : nat -> Z;
  drawn : nat;
  tokenEndpoint : list (Reply TokenData);
  canvaApi : list (Reply Json);
  sent : list Request
}.

Definition withAuthSessions (f : gmap string Session -> gmap string Session) (w : World) : World :=
  {| authSessions := f (authSessions w); pendingAuthStates := pendingAuthStates w;
     now := now w; entropy := entropy w; drawn := drawn w;
     tokenEndpoint := tokenEndpoint w; canvaApi := canvaApi w; sent := sent w |}.

Definition withPendingAuthStates (f : gmap string PendingAuth -> gmap string PendingAuth) (w : World) : World :=
  {| authSessions := authSessions w; pendingAuthStates := f (pendingAuthStates w);
     now := now w; entropy := entropy w; drawn := drawn w;
     tokenEndpoint := tokenEndpoint w; canvaApi := canvaApi w; sent := sent w |}.

(** ** The monad of handler code: state passing with exceptions *)

Definition M (A : Type) : Type := World -> Result A * World.

#[export] Instance M_ret : MRet M := fun A a w => (Ok a, w).

#[export] Instance M_bind : MBind M := fun A B f m w =>
  match m w with
  | (Ok a, w') => f a w'
  | (Throw e, w') => (Throw e, w')
  end.

Definition throw {A} (message : string) : M A := fun w => (Throw message, w).

Definition tryCatch {A} (body : M A) (handler : string -> M A) : M A := fun w =>
  match body w with
  | (Ok a, w') => (Ok a, w')
  | (Throw e, w') => handler e w'
  end.

Definition gets {A} (f : World -> A) : M A := fun w => (Ok (f w), w).
Definition modify (f : World -> World) : M unit := fun w => (Ok tt, f w).

Definition settle {A} (r : Result A) : M A := fun w => (r, w).

(** [Date.now()] *)
Definition dateNow : M Z := gets now.

(** [crypto.randomBytes(n)] *)
Definition randomBytes (n : nat) : M Node.Buffer := fun w =>
  (Ok (map (fun i => entropy w (drawn w + i)%nat mod 256) (seq 0 n)),
   {| authSessions := authSessions w; pendingAuthStates := pendingAuthStates w;
      now := now w; entropy := entropy w; drawn := (drawn w + n)%nat;
      tokenEndpoint := tokenEndpoint w; canvaApi := canvaApi w; sent := sent w |}).

(** [await fetch(...)] against the token endpoint: the request leaves,
    time passes, the next reply comes back. With no reply left the
    connection fails. *)
Definition fetchToken (request : Request) : M (Response TokenData) := fun w =>
  match tokenEndpoint w with
  | [] =>
      (Throw "fetch failed",
       {| authSessions := authSessions w; pendingAuthStates := pendingAuthStates w;
          now := now w; entropy := entropy w; drawn := drawn w;
          tokenEndpoint := []; canvaApi := canvaApi w; sent := sent w ++ [request] |})
  | reply :: later =>
      let w' :=
        {| authSessions := authSessions w; pendingAuthStates := pendingAuthStates w;
           now := now w + elapsed reply; entropy := entropy w; drawn := drawn w;
           tokenEndpoint := later; canvaApi := canvaApi w; sent := sent w ++ [request] |} in
      match settled reply with
      | Rejected reason => (Throw reason, w')
      | Fulfilled response => (Ok response, w')
      end
  end.

(** [await fetch(...)] against the Canva REST API. *)
Definition fetchApi (request : Request) : M (Response Json) := fun w =>
  match canvaApi w with
  | [] =>
      (Throw "fetch failed",
       {| authSessions := authSessions w; pendingAuthStates := pendingAuthStates w;
          now := now w; entropy := entropy w; drawn := drawn w;
          tokenEndpoint := tokenEndpoint w; canvaApi := []; sent := sent w ++ [request] |})
  | reply :: later =>
      let w' :=
        {| authSessions := authSessions w; pendingAuthStates := pendingAuthStates w;
           now := now w + elapsed reply; entropy := entropy w; drawn := drawn w;
           tokenEndpoint := tokenEndpoint w; canvaApi := later; sent := sent w ++ [request] |} in
      match settled reply with
      | Rejected reason => (Throw reason, w')
      | Fulfilled response => (Ok response, w')
      end
  end.

(** ** The server *)

(** The three environment variables read at start-up; [None] is an unset
    variable. *)
Record ProcessEnv : Type := {
  env_CANVA_CLIENT_ID : option string;
  env_CANVA_CLIENT_SECRET : option string;
  env_CANVA_REDIRECT_URI : option string
}.

(** A string that may be [null] or [undefined] ([None]) is truthy when
    it is present and not empty. *)
Definition truthyString (v : option string) : option string :=
  match v with
  | None | Some EmptyString => None
  | Some s => Some s
  end.

(** [process.env.X || fallback]: unset and empty both give the fallback. *)
Definition orElse (v : option string) (fallback : string) : string :=
  match truthyString v with
  | Some s => s
  | None => fallback
  end.

(** [String(v)] of a string that may be [undefined], as the
    [URLSearchParams] constructor applies it to each member. *)
Definition toUSVString (v : option string) : string :=
  match v with
  | None => "undefined"
  | Some s => s
  end.

Definition CANVA_API_BASE : string := "https://api.canva.com/rest/v1".
Definition tokenUrl : string := "https://api.canva.com/rest/v1/oauth/token".
Definition authorizeUrl : string := "https://www.canva.com/api/oauth/authorize".

Definition scopes : list string :=
  [ "asset:read"; "asset:write"; "comment:read"; "comment:write";
    "design:content:read"; "design:content:write"; "design:meta:read";
    "folder:read"; "folder:write"; "profile:read" ].

Definition bufferMs : Z := 5 * 60 * 1000.
Definition pendingTtlMs : Z := 10 * 60 * 1000.

Section Server.

Variable env : ProcessEnv.

Definition CANVA_CLIENT_ID : string := orElse (env_CANVA_CLIENT_ID env) "".
Definition CANVA_CLIENT_SECRET : string := orElse (env_CANVA_CLIENT_SECRET env) "".
Definition CANVA_REDIRECT_URI : string :=
  orElse (env_CANVA_REDIRECT_URI env) "http://0.0.0.0:8001/auth/callback".

(** *** OAuth helper functions with PKCE *)

Definition generateCodeVerifier : M string :=
  bytes ← randomBytes 32;
  mret (Node.toBase64url bytes).

Definition generateCodeChallenge (verifier : string) : string :=
  Node.toBase64url (Node.sha256 (Node.bytesOf verifier)).

Definition generateAuthUrl (state codeVerifier : string) : string :=
  let codeChallenge := generateCodeChallenge codeVerifier in
  let params : Node.URLSearchParams :=
    [ ("client_id", CANVA_CLIENT_ID);
      ("response_type", "code");
      ("redirect_uri", CANVA_REDIRECT_URI);
      ("state", state);
      ("scope", Node.joinWith " " scopes);
      ("code_challenge", codeChallenge);
      ("code_challenge_method", "S256") ] in
  authorizeUrl +:+ "?" +:+ Node.paramsToString params.

Definition formHeaders : list (string * string) :=
  [ ("Content-Type", "application/x-www-form-urlencoded") ].

Definition exchangeRequest (code codeVerifier : string) : Request :=
  {| url := tokenUrl;
     method := "POST";
     headers := formHeaders;
     body := FormBody
       [ ("grant_type", "authorization_code");
         ("code", code);
         ("redirect_uri", CANVA_REDIRECT_URI);
         ("code_verifier", codeVerifier);
         ("client_id", CANVA_CLIENT_ID);
         ("client_secret", CANVA_CLIENT_SECRET) ] |}.

Definition exchangeCodeForToken (code codeVerifier : string) : M TokenData :=
  response ← fetchToken (exchangeRequest code codeVerifier);
  if negb (ok response) then
    throw ("Failed to exchange code for token: " +:+ statusText response +:+ " - " +:+ text response)
  else settle (json response).

Definition refreshRequest (refreshToken : option string) : Request :=
  {| url := tokenUrl;
     method := "POST";
     headers := formHeaders;
     body := FormBody
       [ ("grant_type", "refresh_token");
         ("refresh_token", toUSVString refreshToken);
         ("client_id", CANVA_CLIENT_ID);
         ("client_secret", CANVA_CLIENT_SECRET) ] |}.

Definition refreshAccessToken (refreshToken : option string) : M TokenData :=
  response ← fetchToken (refreshRequest refreshToken);
  if negb (ok response) then
    throw ("Failed to refresh token: " +:+ statusText response +:+ " - " +:+ text response)
  else settle (json response).

(** [session] aliases the object held by [authSessions]; in a handler
    that runs alone the two assignments and the final
    [authSessions.set(sessionId, session)] amount to storing the record
    with both fields replaced. *)
Definition getValidAccessToken (sessionId : string) : M string :=
  sessions ← gets authSessions;
  match sessions !! sessionId with
  | None => throw "Not authenticated. Please authenticate with Canva first."
  | Some session =>
      t ← dateNow;
      if expiresAt session - bufferMs <=? t then
        tokenData ← refreshAccessToken (refreshToken session);
        t' ← dateNow;
        let session' :=
          {| accessToken := access_token tokenData;
             refreshToken := refreshToken session;
             expiresAt := t' + expires_in tokenData * 1000 |} in
        modify (withAuthSessions (insert sessionId session'));;
        mret (accessToken session')
      else mret (accessToken session)
  end.

(** [method] is always given here: callers that omit it pass the
    default ["GET"]. [body] is [None] when the argument is omitted;
    [JsonBody value] stands for [JSON.stringify(value)]. *)
Definition apiRequest (accessToken endpoint method : string) (body : option Json) : Request :=
  {| url := CANVA_API_BASE +:+ endpoint;
     method := method;
     headers :=
       ("Authorization", "Bearer " +:+ accessToken)
       :: (if truthy body && negb (String.eqb method "GET")
           then [("Content-Type", "application/json")] else []);
     body := match body with
             | Some value => if truthy body then JsonBody value else NoBody
             | None => NoBody
             end |}.

Definition canvaApiRequest (sessionId endpoint method : string) (body : option Json) : M Json :=
  accessToken ← getValidAccessToken sessionId;
  response ← fetchApi (apiRequest accessToken endpoint method body);
  if negb (ok response) then
    throw ("Canva API error: " +:+ pretty (status response) +:+ " " +:+ text response)
  else if status response =? 204 then mret JNull
  else settle (json response).

(** *** The tool switch

    Every case of the switch parses [request.params.arguments] with its
    zod parser, issues one [canvaApiRequest] and formats the reply. A
    [ToolCall] is the case taken together with the parsed arguments
    (optional members are [None] when absent; numbers are integers of
    magnitude below 10^21, which [toString] prints in plain decimal;
    fractions and larger numbers, which the parsers also accept and
    which only change the text of the endpoint, have no place here). Which case the name selects and what its parser makes of
    the arguments is decided before the model starts, see
    [CallToolRequest]. *)

Inductive ToolCall : Type :=
| UploadAssetFromUrl (name url : string)
| SearchDesigns (query sortBy ownershipFilter continuation : option string)
| GetDesign (designId : string)
| GetDesignPages (designId : string) (offset limit : option Z)
| GetDesignContent (designId : string)
| CreateFolder (name : string) (parentFolderId : option string)
| MoveItemToFolder (itemId folderId : string)
| ListFolderItems (folderId : string) (itemType continuation : option string)
| CommentOnDesign (designId message : string)
| ListComments (designId : string) (commentResolution continuation : option string)
| ListReplies (designId threadId : string) (continuation : option string)
| ReplyToComment (designId threadId message : string)
| GenerateDesign (query : string) (assetIds : option (list string))
| CreateDesignFromCandidate (jobId candidateId : string)
| StartEditingTransaction (designId : string)
| PerformEditingOperations (transactionId : string) (operations : list Json)
| CommitEditingTransaction (transactionId : string)
| CancelEditingTransaction (transactionId : string)
| GetDesignThumbnail (transactionId : string) (pageIndex : Z)
| GetAssets (assetIds : list string).

(** A [tools/call] request as the switch sees it. *)
Inductive CallToolRequest : Type :=
| Accepted (call : ToolCall)
    (* the name is a case label and the case's parser accepts the arguments *)
| Refused (toolName zodError : string)
    (* the name is a case label and the case's parser throws *)
| Unlisted (toolName : string).
    (* no case carries the name: the default branch *)

(** [if (v) params.append(key, v)] for an optional string. *)
Definition appendIf (key : string) (v : option string) : Node.URLSearchParams :=
  match truthyString v with
  | Some s => [(key, s)]
  | None => []
  end.

(** [if (v !== undefined) params.append(key, v.toString())] *)
Definition appendDefined (key : string) (v : option Z) : Node.URLSearchParams :=
  match v with
  | None => []
  | Some n => [(key, pretty n)]
  end.

Definition get_ (endpoint : string) : string * string * option Json :=
  (endpoint, "GET", None).
Definition post_ (endpoint : string) (body : option Json) : string * string * option Json :=
  (endpoint, "POST", body).

(** The endpoint, method and body each case hands to [canvaApiRequest]. *)
Definition forwarded (call : ToolCall) : string * string * option Json :=
  match call with
  | UploadAssetFromUrl name url =>
      post_ "/url-asset-uploads"
        (Some (JObject [("name", JString name); ("url", JString url)]))
  | SearchDesigns query sortBy ownershipFilter continuation =>
      let params :=
        match truthyString query with
        | Some q => [("query", q); ("sort_by", "relevance")]
        | None => appendIf "sort_by" sortBy
        end
        ++ appendIf "ownership" ownershipFilter
        ++ appendIf "continuation" continuation in
      get_ ("/designs?" +:+ Node.paramsToString params)
  | GetDesign designId => get_ ("/designs/" +:+ designId)
  | GetDesignPages designId offset limit =>
      let params := appendDefined "offset" offset ++ appendDefined "limit" limit in
      get_ ("/designs/" +:+ designId +:+ "/pages?" +:+ Node.paramsToString params)
  | GetDesignContent designId => get_ ("/designs/" +:+ designId +:+ "/content")
  | CreateFolder name parentFolderId =>
      post_ "/folders"
        (Some (JObject (("name", JString name)
                        :: match truthyString parentFolderId with
                           | Some p => [("parent_folder_id", JString p)]
                           | None => []
                           end)))
  | MoveItemToFolder itemId folderId =>
      post_ ("/folders/" +:+ folderId +:+ "/items")
        (Some (JObject [("item_id", JString itemId)]))
  | ListFolderItems folderId itemType continuation =>
      let params := appendIf "item_type" itemType ++ appendIf "continuation" continuation in
      get_ ("/folders/" +:+ folderId +:+ "/items?" +:+ Node.paramsToString params)
  | CommentOnDesign designId message =>
      post_ ("/designs/" +:+ designId +:+ "/comments")
        (Some (JObject [("message_plaintext", JString message)]))
  | ListComments designId commentResolution continuation =>
      let params :=
        appendIf "comment_resolution" commentResolution
        ++ appendIf "continuation" continuation in
      get_ ("/designs/" +:+ designId +:+ "/comments?" +:+ Node.paramsToString params)
  | ListReplies designId threadId continuation =>
      let params := appendIf "continuation" continuation in
      get_ ("/designs/" +:+ designId +:+ "/comments/" +:+ threadId +:+ "/replies?"
            +:+ Node.paramsToString params)
  | ReplyToComment designId threadId message =>
      post_ ("/designs/" +:+ designId +:+ "/comments/" +:+ threadId +:+ "/replies")
        (Some (JObject [("message_plaintext", JString message)]))
  | GenerateDesign query assetIds =>
      post_ "/designs/generate"
        (Some (JObject (("query", JString query)
                        :: match assetIds with
                           | None => []
                           | Some ids => [("asset_ids", JArray (map JString ids))]
                           end)))
  | CreateDesignFromCandidate jobId candidateId =>
      post_ ("/designs/generate/" +:+ jobId +:+ "/candidates/" +:+ candidateId) None
  | StartEditingTransaction designId =>
      post_ ("/designs/" +:+ designId +:+ "/edit") None
  | PerformEditingOperations transactionId operations =>
      post_ ("/designs/edit/" +:+ transactionId +:+ "/operations")
        (Some (JObject [("operations", JArray operations)]))
  | CommitEditingTransaction transactionId =>
      post_ ("/designs/edit/" +:+ transactionId +:+ "/commit") None
  | CancelEditingTransaction transactionId =>
      post_ ("/designs/edit/" +:+ transactionId +:+ "/cancel") None
  | GetDesignThumbnail transactionId pageIndex =>
      get_ ("/designs/edit/" +:+ transactionId +:+ "/pages/" +:+ pretty pageIndex
            +:+ "/thumbnail")
  | GetAssets assetIds =>
      get_ ("/assets?" +:+ Node.paramsToString (map (fun id => ("asset_ids", id)) assetIds))
  end.

(** What the handler returns: the text-only content of the
    authentication prompt, or the value that the [return] statement of
    the case taken builds from the parsed arguments and the data the
    API sent (the formatting of that value is not modelled). *)
Inductive CallToolResult : Type :=
| TextContent (text : string)
| CaseReturn (call : ToolCall) (data : Json).

(** Reading [value.property] as the [return] statements do, for the
    member names they use (none of them inherited): on [null] and
    [undefined] it throws a [TypeError]; an object gives its member,
    the last one of that name as [JSON.parse] keeps it, or [undefined];
    any other value gives [undefined]. *)
Definition typeError (base property : string) : string :=
  "Cannot read properties of " +:+ base +:+ " (reading '" +:+ property +:+ "')".

Fixpoint ownProperty (property : string) (members : list (string * Json)) : option Json :=
  match members with
  | [] => None
  | (name, value) :: rest =>
      match ownProperty property rest with
      | Some later => Some later
      | None => if String.eqb name property then Some value else None
      end
  end.

Definition getMember (value : option Json) (property : string) : Result (option Json) :=
  match value with
  | None => Throw (typeError "undefined" property)
  | Some JNull => Throw (typeError "null" property)
  | Some (JObject members) => Ok (ownProperty property members)
  | Some _ => Ok None
  end.

Fixpoint readPath (value : option Json) (path : list string) : Result (option Json) :=
  match path with
  | [] => Ok value
  | property :: rest =>
      match getMember value property with
      | Ok member => readPath member rest
      | Throw message => Throw message
      end
  end.

(** The members of [data] a case reads without [?.] while it builds
    its result: [data.job.id], [data.items], [data.design.title],
    [data.candidates], [data.transaction_id]; the other cases pass
    [data] on unread or drop it. *)
Definition membersRead (call : ToolCall) : list string :=
  match call with
  | UploadAssetFromUrl _ _ => ["job"; "id"]
  | GetDesign _ => ["design"; "title"]
  | SearchDesigns _ _ _ _ | GetDesignPages _ _ _ | ListFolderItems _ _ _
  | ListComments _ _ _ | ListReplies _ _ _ | GetAssets _ => ["items"]
  | GenerateDesign _ _ => ["candidates"]
  | StartEditingTransaction _ => ["transaction_id"]
  | _ => []
  end.

(** The [return] statement of a case: it throws when a member it reads
    hangs off [null] or [undefined] (the [null] of a 204 included). *)
Definition caseReturn (call : ToolCall) (data : Json) : Result CallToolResult :=
  match readPath (Some data) (membersRead call) with
  | Ok _ => Ok (CaseReturn call data)
  | Throw message => Throw message
  end.

Definition toolSwitch (sessionId : string) (request : CallToolRequest) : M CallToolResult :=
  match request with
  | Accepted call =>
      let '(endpoint, method, body) := forwarded call in
      data ← canvaApiRequest sessionId endpoint method body;
      settle (caseReturn call data)
  | Refused _ zodError => throw zodError
  | Unlisted toolName => throw ("Unknown tool: " +:+ toolName)
  end.

(** *** The [CallToolRequestSchema] handler of [createCanvaServer sessionId] *)

Definition authenticationPrompt (authUrl : string) : string :=
  "Please authenticate with Canva to use this feature. Visit: " +:+ authUrl.

Definition callTool (sessionId : string) (request : CallToolRequest) : M CallToolResult :=
  sessions ← gets authSessions;
  match sessions !! sessionId with
  | None =>
      stateBytes ← randomBytes 16;
      let state := Node.toHex stateBytes in
      codeVerifier ← generateCodeVerifier;
      t ← dateNow;
      modify (withPendingAuthStates
                (insert state
                   {| sessionId := sessionId; createdAt := t; codeVerifier := codeVerifier |}));;
      let authUrl := generateAuthUrl state codeVerifier in
      mret (TextContent (authenticationPrompt authUrl))
  | Some _ => toolSwitch sessionId request
  end.

(** *** [handleAuthCallback] *)

(** The three query parameters; [None] is the [null] that
    [url.searchParams.get] returns for an absent parameter. *)
Record CallbackQuery : Type := {
  code : option string;
  state : option string;
  error : option string
}.

(** The bodies the callback answers with: a plain message, or one of
    the three HTML pages (markup not reproduced). *)
Inductive Page : Type :=
| PlainText (message : string)
| AuthenticationFailedPage (error : string)
| ConnectedPage
| AuthenticationErrorPage (message : string).

Record HttpReply : Type := {
  statusCode : Z;
  page : Page
}.

Definition invalidState : HttpReply :=
  {| statusCode := 400; page := PlainText "Invalid or expired state parameter" |}.
Definition missingParameter : HttpReply :=
  {| statusCode := 400; page := PlainText "Missing code or state parameter" |}.

(** The clean-up loop: every entry with [now - createdAt > 10 min] is
    deleted. *)
Definition sweep (now : Z) (pending : gmap string PendingAuth) : gmap string PendingAuth :=
  filter (fun kv : string * PendingAuth => ¬ (pendingTtlMs < now - createdAt kv.2)) pending.

Definition handleAuthCallback (query : CallbackQuery) : M HttpReply :=
  match truthyString (error query) with
  | Some error =>
      mret {| statusCode := 400; page := AuthenticationFailedPage error |}
  | None =>
      match truthyString (code query), truthyString (state query) with
      | Some code, Some state =>
          pending ← gets pendingAuthStates;
          match pending !! state with
          | None => mret invalidState
          | Some pendingAuth =>
              now ← dateNow;
              modify (withPendingAuthStates (sweep now));;
              tryCatch
                (tokenData ← exchangeCodeForToken code (codeVerifier pendingAuth);
                 t ← dateNow;
                 modify (withAuthSessions
                           (insert (sessionId pendingAuth)
                              {| accessToken := access_token tokenData;
                                 refreshToken := refresh_token tokenData;
                                 expiresAt := t + expires_in tokenData * 1000 |}));;
                 modify (withPendingAuthStates (delete state));;
                 mret {| statusCode := 200; page := ConnectedPage |})
                (fun message =>
                   mret {| statusCode := 500; page := AuthenticationErrorPage message |})
          end
      | _, _ => mret missingParameter
      end
  end.

End Server.

(** ** The rest of the server: widget assets, resources, the tool list *)

(** *** [readWidgetHtml]

    The file system as the function sees it through [fs.existsSync],
    [fs.readFileSync(path, "utf8")] and [fs.readdirSync]. Paths are
    joined with ["/"], component names being plain file names. *)
Record FileSystem : Type := {
  existsSync : string -> bool;
  readFileSync : string -> Result string;
  readdirSync : string -> Result (list string)
}.

Definition pathJoin (parts : list string) : string := Node.joinWith "/" parts.

Definition doubleQuote : string := String (ascii_of_nat 34) EmptyString.

(** [s.endsWith(suffix)] ([s.startsWith(p)] is [String.prefix p s]). *)
Definition endsWith (s suffix : string) : bool :=
  let n := String.length s in
  let k := String.length suffix in
  (k <=? n)%nat && String.eqb (String.substring (n - k) k s) suffix.

(** [Array.prototype.sort()] on strings: ascending by UTF-16 code unit.
    On the UTF-8 bytes of two names this is the order of the bytes at
    the first place they differ, except that the characters of the
    supplementary planes (surrogate pairs in UTF-16, lead bytes F0..F4)
    come before those from U+E000 to U+FFFF (lead bytes EE and EF). *)
Definition codeUnitRank (b : Z) : Z :=
  if (0xEE <=? b) && (b <=? 0xEF) then b + 5
  else if 0xF0 <=? b then b - 2
  else b.

Fixpoint lexLeb (xs ys : list Z) : bool :=
  match xs, ys with
  | [], _ => true
  | _ :: _, [] => false
  | x :: xs', y :: ys' => (x <? y) || ((x =? y) && lexLeb xs' ys')
  end.

Definition codeUnitLeb (a b : string) : bool :=
  lexLeb (map codeUnitRank (Node.bytesOf a)) (map codeUnitRank (Node.bytesOf b)).

Fixpoint insertSorted (x : string) (sorted : list string) : list string :=
  match sorted with
  | [] => [x]
  | y :: rest => if codeUnitLeb x y then x :: sorted else y :: insertSorted x rest
  end.

Definition sortStrings (names : list string) : list string :=
  fold_right insertSorted [] names.

Definition isCandidate (componentName file : string) : bool :=
  String.prefix (componentName +:+ "-") file && endsWith file ".html".

Definition assetsMissing (ASSETS_DIR : string) : string :=
  "Widget assets not found. Expected directory " +:+ ASSETS_DIR +:+ ". Run "
  +:+ doubleQuote +:+ "npm run build" +:+ doubleQuote +:+ " before starting the server.".

Definition widgetMissing (ASSETS_DIR componentName : string) : string :=
  "Widget HTML for " +:+ doubleQuote +:+ componentName +:+ doubleQuote +:+ " not found in "
  +:+ ASSETS_DIR +:+ ". Run " +:+ doubleQuote +:+ "npm run build" +:+ doubleQuote
  +:+ " to generate the assets.".

(** [htmlContents] below is [Ok None] while the variable is still
    [null]. *)
Definition readWidgetHtml (fs : FileSystem) (ASSETS_DIR componentName : string) : Result string :=
  if negb (existsSync fs ASSETS_DIR) then Throw (assetsMissing ASSETS_DIR)
  else
    let read (path : string) : Result (option string) :=
      match readFileSync fs path with
      | Ok contents => Ok (Some contents)
      | Throw message => Throw message
      end in
    let directPath := pathJoin [ASSETS_DIR; componentName +:+ ".html"] in
    let htmlContents : Result (option string) :=
      if existsSync fs directPath then read directPath
      else
        match readdirSync fs ASSETS_DIR with
        | Throw message => Throw message
        | Ok files =>
            let candidates := sortStrings (List.filter (isCandidate componentName) files) in
            match truthyString (last candidates) with
            | Some fallback => read (pathJoin [ASSETS_DIR; fallback])
            | None =>
                let nestedPath :=
                  pathJoin [ASSETS_DIR; "src"; "components"; componentName +:+ ".html"] in
                if existsSync fs nestedPath then read nestedPath else Ok None
            end
        end in
    match htmlContents with
    | Throw message => Throw message
    | Ok contents =>
        match truthyString contents with
        | Some html => Ok html
        | None => Throw (widgetMissing ASSETS_DIR componentName)
        end
    end.

(** *** Widgets and the resource handlers *)

Module Widget.
Record t : Type := {
  id : string;
  title : string;
  templateUri : string;
  invoking : string;
  invoked : string;
  html : string;
  responseText : string
}.
End Widget.

(** [widgetMeta(widget)] *)
Record WidgetMeta : Type := {
  outputTemplate : string;
  toolInvocationInvoking : string;
  toolInvocationInvoked : string;
  widgetAccessible : bool;
  resultCanProduceWidget : bool
}.

Definition widgetMeta (widget : Widget.t) : WidgetMeta :=
  {| outputTemplate := Widget.templateUri widget;
     toolInvocationInvoking := Widget.invoking widget;
     toolInvocationInvoked := Widget.invoked widget;
     widgetAccessible := true;
     resultCanProduceWidget := true |}.

(** The [widgets] array, given the markup [readWidgetHtml] found for
    the three components when the module was loaded. *)
Definition widgets (searchHtml generatorHtml editorHtml : string) : list Widget.t :=
  [ {| Widget.id := "search-designs";
       Widget.title := "Canva Design Search";
       Widget.templateUri := "ui://widget/canva-search-designs.html";
       Widget.invoking := "Searching Canva";
       Widget.invoked := "Search complete";
       Widget.html := searchHtml;
       Widget.responseText := "Found Canva designs" |};
    {| Widget.id := "design-generator";
       Widget.title := "Canva Design Generator";
       Widget.templateUri := "ui://widget/canva-design-generator.html";
       Widget.invoking := "Generating design";
       Widget.invoked := "Design generated";
       Widget.html := generatorHtml;
       Widget.responseText := "Generated design candidates" |};
    {| Widget.id := "design-editor";
       Widget.title := "Canva Design Editor";
       Widget.templateUri := "ui://widget/canva-design-editor.html";
       Widget.invoking := "Opening editor";
       Widget.invoked := "Editor ready";
       Widget.html := editorHtml;
       Widget.responseText := "Design editor opened" |} ].

(** A JavaScript [Map] with string keys: entries in insertion order,
    [set] on a key already present replaces the value in place. *)
Fixpoint mapSet {V : Type} (key : string) (value : V) (entries : list (string * V))
    : list (string * V) :=
  match entries with
  | [] => [(key, value)]
  | (k, v) :: rest =>
      if String.eqb k key then (key, value) :: rest else (k, v) :: mapSet key value rest
  end.

Fixpoint mapGet {V : Type} (key : string) (entries : list (string * V)) : option V :=
  match entries with
  | [] => None
  | (k, v) :: rest => if String.eqb k key then Some v else mapGet key rest
  end.

Definition widgetsById (ws : list Widget.t) : list (string * Widget.t) :=
  fold_left (fun m widget => mapSet (Widget.id widget) widget m) ws [].

Definition widgetsByUri (ws : list Widget.t) : list (string * Widget.t) :=
  fold_left (fun m widget => mapSet (Widget.templateUri widget) widget m) ws [].

Record Resource : Type := {
  resourceUri : string;
  resourceName : string;
  resourceDescription : string;
  resourceMimeType : string;
  resourceMeta : WidgetMeta
}.

(** [resources], what the [ListResourcesRequestSchema] handler returns. *)
Definition resources (ws : list Widget.t) : list Resource :=
  map (fun entry : string * Widget.t =>
         let widget := entry.2 in
         {| resourceUri := Widget.templateUri widget;
            resourceName := Widget.title widget;
            resourceDescription := Widget.title widget +:+ " widget markup";
            resourceMimeType := "text/html+skybridge";
            resourceMeta := widgetMeta widget |})
      (widgetsById ws).

Record ResourceContents : Type := {
  contentsUri : string;
  contentsMimeType : string;
  contentsText : string;
  contentsMeta : WidgetMeta
}.

(** The [ReadResourceRequestSchema] handler. *)
Definition readResource (ws : list Widget.t) (uri : string) : Result (list ResourceContents) :=
  match mapGet uri (widgetsByUri ws) with
  | None => Throw ("Unknown resource: " +:+ uri)
  | Some widget =>
      Ok [ {| contentsUri := Widget.templateUri widget;
              contentsMimeType := "text/html+skybridge";
              contentsText := Widget.html widget;
              contentsMeta := widgetMeta widget |} ]
  end.

(** *** The [tools] array: names and annotations, and the label of the
    switch case a [ToolCall] stands for *)

Record ToolInfo : Type := {
  toolInfoName : string;
  destructiveHint : bool;
  openWorldHint : bool;
  readOnlyHint : bool
}.

Definition tool (name : string) (destructive readOnly : bool) : ToolInfo :=
  {| toolInfoName := name; destructiveHint := destructive;
     openWorldHint := false; readOnlyHint := readOnly |}.

Definition tools : list ToolInfo :=
  [ tool "upload-asset-from-url" false false;
    tool "search-designs" false true;
    tool "get-design" false true;
    tool "get-design-pages" false true;
    tool "get-design-content" false true;
    tool "create-folder" false false;
    tool "move-item-to-folder" false false;
    tool "list-folder-items" false true;
    tool "comment-on-design" false false;
    tool "list-comments" false true;
    tool "list-replies" false true;
    tool "reply-to-comment" false false;
    tool "generate-design" false false;
    tool "create-design-from-candidate" false false;
    tool "start-editing-transaction" false false;
    tool "perform-editing-operations" false false;
    tool "commit-editing-transaction" true false;
    tool "cancel-editing-transaction" false false;
    tool "get-design-thumbnail" false true;
    tool "get-assets" false true ].

Definition caseLabel (call : ToolCall) : string :=
  match call with
  | UploadAssetFromUrl _ _ => "upload-asset-from-url"
  | SearchDesigns _ _ _ _ => "search-designs"
  | GetDesign _ => "get-design"
  | GetDesignPages _ _ _ => "get-design-pages"
  | GetDesignContent _ => "get-design-content"
  | CreateFolder _ _ => "create-folder"
  | MoveItemToFolder _ _ => "move-item-to-folder"
  | ListFolderItems _ _ _ => "list-folder-items"
  | CommentOnDesign _ _ => "comment-on-design"
  | ListComments _ _ _ => "list-comments"
  | ListReplies _ _ _ => "list-replies"
  | ReplyToComment _ _ _ => "reply-to-comment"
  | GenerateDesign _ _ => "generate-design"
  | CreateDesignFromCandidate _ _ => "create-design-from-candidate"
  | StartEditingTransaction _ => "start-editing-transaction"
  | PerformEditingOperations _ _ => "perform-editing-operations"
  | CommitEditingTransaction _ => "commit-editing-transaction"
  | CancelEditingTransaction _ => "cancel-editing-transaction"
  | GetDesignThumbnail _ _ => "get-design-thumbnail"
  | GetAssets _ => "get-assets"
  end.

Definition toolNamed (name : string) : option ToolInfo :=
  List.find (fun info => String.eqb (toolInfoName info) name) tools.

(** ** Notions used to state the properties *)

(** The bytes [crypto.randomBytes] hands out next, [offset] bytes from
    now. *)
Definition upcoming (w : World) (offset n : nat) : Node.Buffer :=
  map (fun i => entropy w (drawn w + offset + i)%nat mod 256) (seq 0 n).

(** What the next request to the token endpoint comes back with, and
    the world once it has. *)
Definition tokenAnswer (w : World) : Result (Response TokenData) :=
  match tokenEndpoint w with
  | [] => Throw "fetch failed"
  | reply :: _ =>
      match settled reply with
      | Rejected reason => Throw reason
      | Fulfilled response => Ok response
      end
  end.

Definition tokenSettled (request : Request) (w : World) : World :=
  {| authSessions := authSessions w; pendingAuthStates := pendingAuthStates w;
     now := match tokenEndpoint w with [] => now w | reply :: _ => now w + elapsed reply end;
     entropy := entropy w; drawn := drawn w;
     tokenEndpoint := tail (tokenEndpoint w); canvaApi := canvaApi w;
     sent := sent w ++ [request] |}.

(** A callback that carries a code and a state and no error. *)
Definition presents (query : CallbackQuery) (givenCode givenState : string) : Prop :=
  truthyString (error query) = None
  /\ truthyString (code query) = Some givenCode
  /\ truthyString (state query) = Some givenState.

(** The same for the Canva REST API. *)
Definition apiAnswer (w : World) : Result (Response Json) :=
  match canvaApi w with
  | [] => Throw "fetch failed"
  | reply :: _ =>
      match settled reply with
      | Rejected reason => Throw reason
      | Fulfilled response => Ok response
      end
  end.

Definition apiSettled (request : Request) (w : World) : World :=
  {| authSessions := authSessions w; pendingAuthStates := pendingAuthStates w;
     now := match canvaApi w with [] => now w | reply :: _ => now w + elapsed reply end;
     entropy := entropy w; drawn := drawn w;
     tokenEndpoint := tokenEndpoint w; canvaApi := tail (canvaApi w);
     sent := sent w ++ [request] |}.

(** The world after [crypto.randomBytes(n)]. *)
Definition afterDraw (n : nat) (w : World) : World :=
  {| authSessions := authSessions w; pendingAuthStates := pendingAuthStates w;
     now := now w; entropy := entropy w; drawn := (drawn w + n)%nat;
     tokenEndpoint := tokenEndpoint w; canvaApi := canvaApi w; sent := sent w |}.

(** Character classes, on bytes: the base64url alphabet, lower-case
    hexadecimal digits, and what the form serializer can put out. *)
Definition isBase64url (b : Z) : bool :=
  ((48 <=? b) && (b <=? 57)) || ((65 <=? b) && (b <=? 90)) || ((97 <=? b) && (b <=? 122))
  || (b =? 45) || (b =? 95).

Definition isHexDigit (b : Z) : bool :=
  ((48 <=? b) && (b <=? 57)) || ((97 <=? b) && (b <=? 102)).

Definition isFormSafe (b : Z) : bool :=
  Node.isUnreserved b || (b =? 43) || (b =? 37).

Definition allBytes (p : Z -> bool) (s : string) : bool := forallb p (Node.bytesOf s).

Definition isByte (b : Z) : Prop := 0 <= b < 256.

(** The order [sort()] puts file names in. *)
Definition lebString (a b : string) : Prop := codeUnitLeb a b = true.

(** ** Scenarios *)

Module Scenario.

Definition env : ProcessEnv :=
  {| env_CANVA_CLIENT_ID := Some "OC-AZ123";
     env_CANVA_CLIENT_SECRET := Some "cnvca-secret";
     env_CANVA_REDIRECT_URI := None |}.

(** Nothing configured: [CANVA_CLIENT_ID] is unset. *)
Definition unconfigured : ProcessEnv :=
  {| env_CANVA_CLIENT_ID := None;
     env_CANVA_CLIENT_SECRET := None;
     env_CANVA_REDIRECT_URI := None |}.

Definition tape (i : nat) : Z := Z.of_nat i * 7 + 3.

Definition world (sessions : gmap string Session) (pending : gmap string PendingAuth)
    (clock : Z) (tokenReplies : list (Reply TokenData)) (apiReplies : list (Reply Json)) : World :=
  {| authSessions := sessions; pendingAuthStates := pending; now := clock;
     entropy := tape; drawn := 0;
     tokenEndpoint := tokenReplies; canvaApi := apiReplies; sent := [] |}.

Definition answers {J} (ms code : Z) (reason body : string) (parsed : Result J) : Reply J :=
  {| elapsed := ms;
     settled := Fulfilled {| status := code; statusText := reason; text := body; json := parsed |} |}.

(** The token endpoint grants [A2] for an hour without rotating the
    refresh token; it grants [A] and [R]; it refuses. *)
Definition granted : TokenData :=
  {| access_token := "A"; refresh_token := Some "R"; expires_in := 3600 |}.
Definition renewed : TokenData :=
  {| access_token := "A2"; refresh_token := None; expires_in := 3600 |}.
Definition grantA2 : Reply TokenData := answers 250 200 "OK" "" (Ok renewed).
Definition grantAR : Reply TokenData := answers 250 200 "OK" "" (Ok granted).
Definition refusal : Reply TokenData :=
  answers 120 400 "Bad Request" "invalid_grant" (Throw "Unexpected token").

Definition outage : Reply TokenData :=
  answers 120 503 "Service Unavailable" "upstream timeout" (Throw "Unexpected token").

Definition abc : PendingAuth := {| sessionId := "s1"; createdAt := 0; codeVerifier := "v1" |}.

Definition s1 (expiry : Z) : Session :=
  {| accessToken := "A"; refreshToken := Some "R"; expiresAt := expiry |}.

Definition callback : CallbackQuery :=
  {| code := Some "c0de"; state := Some "abc"; error := None |}.

(** The API answers 204, or refuses with 403. *)
Definition noContent : Reply Json :=
  answers 80 204 "No Content" "" (Throw "Unexpected end of JSON input").
Definition forbidden : Reply Json :=
  answers 80 403 "Forbidden" "missing scope" (Throw "Unexpected token").

(** Nobody has signed in; session [s1] is waiting for its callback
    under state [abc] (created at 0); session [s1] is signed in, the
    clock at 0. *)
Definition idle : World := world ∅ ∅ 1000 [] [].
Definition awaiting (clock : Z) (tokenReplies : list (Reply TokenData)) : World :=
  world ∅ {[ "abc" := abc ]} clock tokenReplies [].
Definition signedIn (expiry : Z) (tokenReplies : list (Reply TokenData))
    (apiReplies : list (Reply Json)) : World :=
  world {[ "s1" := s1 expiry ]} ∅ 0 tokenReplies apiReplies.

End Scenario.

(** Further scenarios: a sign-in from the first call on, and an assets
    directory holding two builds of the search widget. *)
Module Cases.

Definition fresh : World := Scenario.world ∅ ∅ 1000 [Scenario.grantAR] [].

Definition stateToken : string := "030a11181f262d343b424950575e656c".
Definition verifier : string := "c3qBiI-WnaSrsrnAx87V3OPq8fj_Bg0UGyIpMDc-RUw".

Definition redirected : CallbackQuery :=
  {| code := Some "c0de"; state := Some stateToken; error := None |}.

Definition denied : CallbackQuery :=
  {| code := None; state := Some "abc"; error := Some "access_denied" |}.

Definition builds : list string :=
  [ "canva-search-designs-a1b2.html"; "index.js"; "canva-search-designs-c3d4.html";
    "canva-design-editor.html" ].

Definition disk : FileSystem :=
  {| existsSync := fun path =>
       String.eqb path "/srv/assets" || String.eqb path "/srv/assets/canva-design-editor.html";
     readFileSync := fun path =>
       if String.eqb path "/srv/assets/canva-search-designs-c3d4.html" then Ok "<div>new</div>"
       else if String.eqb path "/srv/assets/canva-search-designs-a1b2.html" then Ok "<div>old</div>"
       else if String.eqb path "/srv/assets/canva-design-editor.html" then Ok ""
       else Throw "ENOENT";
     readdirSync := fun path =>
       if String.eqb path "/srv/assets" then Ok builds else Throw "ENOENT" |}.

(** Three authorizations pending at 700000 (the second one older than
    ten minutes) while session [s2] is signed in; the redirect for the
    first arrives. *)
Definition waiting1 : PendingAuth :=
  {| sessionId := "s1"; createdAt := 690000; codeVerifier := "v1" |}.
Definition stale2 : PendingAuth :=
  {| sessionId := "s2"; createdAt := 50000; codeVerifier := "v2" |}.
Definition waiting3 : PendingAuth :=
  {| sessionId := "s3"; createdAt := 400000; codeVerifier := "v3" |}.

Definition crowded : World :=
  Scenario.world {[ "s2" := Scenario.s1 9000000 ]}
    (<["st1" := waiting1]> (<["st2" := stale2]> {[ "st3" := waiting3 ]}))
    700000 [Scenario.grantAR] [].

Definition arrival : CallbackQuery :=
  {| code := Some "c0de"; state := Some "st1"; error := None |}.

(** Two builds whose names differ in U+FF5E and U+1F600. *)
Definition tildeBuild : string := "canva-search-designs-～.html".
Definition smileyBuild : string := "canva-search-designs-😀.html".

Definition glyphBuilds : list string := [tildeBuild; "readme.txt"; smileyBuild].

Definition glyphDisk : FileSystem :=
  {| existsSync := fun path => String.eqb path "/srv/glyphs";
     readFileSync := fun path =>
       if String.eqb path ("/srv/glyphs/" +:+ tildeBuild) then Ok "<div>tilde</div>"
       else if String.eqb path ("/srv/glyphs/" +:+ smileyBuild) then Ok "<div>smiley</div>"
       else Throw "ENOENT";
     readdirSync := fun path =>
       if String.eqb path "/srv/glyphs" then Ok glyphBuilds else Throw "ENOENT" |}.

End Cases.

(** ** Properties *)

Ltac run :=
  cbv beta iota delta
    [mbind M_bind mret M_ret gets modify throw settle dateNow tryCatch] in *.

Lemma append_assoc (a b c : string) : (a +:+ b) +:+ c = a +:+ (b +:+ c).
Proof.
  induction a as [|x a IH]; [reflexivity |].
  change (String x ((a +:+ b) +:+ c) = String x (a +:+ (b +:+ c))).
  f_equal. exact IH.
Qed.

Lemma fetchToken_eq (request : Request) (w : World) :
  fetchToken request w = (tokenAnswer w, tokenSettled request w).
Proof.
  unfold fetchToken, tokenAnswer, tokenSettled.
  destruct (tokenEndpoint w) as [|reply later]; [reflexivity |].
  destruct (settled reply); reflexivity.
Qed.

Lemma fetchApi_eq (request : Request) (w : World) :
  fetchApi request w = (apiAnswer w, apiSettled request w).
Proof.
  unfold fetchApi, apiAnswer, apiSettled.
  destruct (canvaApi w) as [|reply later]; [reflexivity |].
  destruct (settled reply); reflexivity.
Qed.

Lemma upcoming_now (w : World) (n : nat) :
  map (fun i => entropy w (drawn w + i)%nat mod 256) (seq 0 n) = upcoming w 0 n.
Proof.
  unfold upcoming. apply map_ext. intros i. now rewrite Nat.add_0_r.
Qed.

Section Properties.

Variable env : ProcessEnv.

(** *** The token endpoint client *)

Lemma refreshAccessToken_world (refreshToken : option string) (w : World) :
  (refreshAccessToken env refreshToken w).2 = tokenSettled (refreshRequest env refreshToken) w.
Proof.
  unfold refreshAccessToken. run. rewrite fetchToken_eq.
  destruct (tokenAnswer w) as [response|]; [| reflexivity].
  destruct (negb (ok response)); [reflexivity |].
  destruct (json response); reflexivity.
Qed.

Lemma exchangeCodeForToken_world (code verifier : string) (w : World) :
  (exchangeCodeForToken env code verifier w).2 = tokenSettled (exchangeRequest env code verifier) w.
Proof.
  unfold exchangeCodeForToken. run. rewrite fetchToken_eq.
  destruct (tokenAnswer w) as [response|]; [| reflexivity].
  destruct (negb (ok response)); [reflexivity |].
  destruct (json response); reflexivity.
Qed.

(** The exchange neither reads nor writes [pendingAuthStates]. *)
Lemma exchangeCodeForToken_pending (code verifier : string) f (w : World) :
  exchangeCodeForToken env code verifier (withPendingAuthStates f w) =
  ((exchangeCodeForToken env code verifier w).1,
   withPendingAuthStates f (exchangeCodeForToken env code verifier w).2).
Proof.
  unfold exchangeCodeForToken. run. rewrite !fetchToken_eq.
  change (tokenAnswer (withPendingAuthStates f w)) with (tokenAnswer w).
  destruct (tokenAnswer w) as [response|]; [| reflexivity].
  destruct (negb (ok response)); [reflexivity |].
  destruct (json response); reflexivity.
Qed.

(** *** [getValidAccessToken] *)

Lemma getValidAccessToken_passes (sid : string) (s : Session) (w : World) :
  authSessions w !! sid = Some s ->
  bufferMs < expiresAt s - now w ->
  getValidAccessToken env sid w = (Ok (accessToken s), w).
Proof.
  intros Hs Hfar. unfold getValidAccessToken. run. rewrite Hs.
  destruct (Z.leb_spec (expiresAt s - bufferMs) (now w)); [lia | reflexivity].
Qed.

Lemma getValidAccessToken_refreshes (sid : string) (s : Session) (w : World) :
  authSessions w !! sid = Some s ->
  expiresAt s - now w <= bufferMs ->
  getValidAccessToken env sid w =
  match refreshAccessToken env (refreshToken s) w with
  | (Ok tokenData, w1) =>
      (Ok (access_token tokenData),
       withAuthSessions
         (insert sid {| accessToken := access_token tokenData;
                        refreshToken := refreshToken s;
                        expiresAt := now w1 + expires_in tokenData * 1000 |}) w1)
  | (Throw message, w1) => (Throw message, w1)
  end.
Proof.
  intros Hs Hnear. unfold getValidAccessToken. run. rewrite Hs.
  destruct (Z.leb_spec (expiresAt s - bufferMs) (now w)); [| lia].
  destruct (refreshAccessToken env (refreshToken s) w) as [[tokenData|message] w1]; reflexivity.
Qed.

(** The token handed back is the one the store holds afterwards. *)
Lemma getValidAccessToken_current (sid token : string) (w w1 : World) :
  getValidAccessToken env sid w = (Ok token, w1) ->
  exists s, authSessions w1 !! sid = Some s /\ accessToken s = token.
Proof.
  intros Hrun. destruct (authSessions w !! sid) as [s|] eqn:Hs.
  - destruct (Z.le_gt_cases (expiresAt s - now w) bufferMs) as [Hnear|Hfar].
    + rewrite (getValidAccessToken_refreshes sid s w Hs Hnear) in Hrun.
      destruct (refreshAccessToken env (refreshToken s) w) as [[tokenData|message] w2];
        [| discriminate].
      injection Hrun as <- <-. eexists. split; [apply lookup_insert_eq | reflexivity].
    + rewrite (getValidAccessToken_passes sid s w Hs) in Hrun by lia.
      injection Hrun as <- <-. eauto.
  - unfold getValidAccessToken in Hrun. run. rewrite Hs in Hrun. discriminate.
Qed.

(** C4 (amended): with a session on record, [getValidAccessToken]
    refreshes exactly when [expiresAt - now] is at most five minutes:
    it then hands the token endpoint one refresh request and, if that
    succeeds, stores the new access token and expiry; when more than
    five minutes remain it returns the stored token, calls nothing and
    leaves the world as it was. *)
Theorem getValidAccessToken_refresh_iff (sid : string) (s : Session) (w : World) :
  authSessions w !! sid = Some s ->
  (expiresAt s - now w <= bufferMs ->
     sent (getValidAccessToken env sid w).2 = sent w ++ [refreshRequest env (refreshToken s)]
     /\ forall tokenData w1,
          refreshAccessToken env (refreshToken s) w = (Ok tokenData, w1) ->
          getValidAccessToken env sid w =
          (Ok (access_token tokenData),
           withAuthSessions
             (insert sid {| accessToken := access_token tokenData;
                            refreshToken := refreshToken s;
                            expiresAt := now w1 + expires_in tokenData * 1000 |}) w1))
  /\ (bufferMs < expiresAt s - now w ->
        getValidAccessToken env sid w = (Ok (accessToken s), w)).
Proof.
  intros Hs. split.
  - intros Hnear. rewrite (getValidAccessToken_refreshes sid s w Hs Hnear).
    pose proof (refreshAccessToken_world (refreshToken s) w) as Hworld.
    destruct (refreshAccessToken env (refreshToken s) w) as [[tokenData|message] w1];
      simpl in Hworld; subst w1; split; try reflexivity.
    + intros tokenData' w1 [= <- <-]. reflexivity.
    + intros tokenData' w1 [=].
  - apply getValidAccessToken_passes, Hs.
Qed.

(** C6: a refresh whose response carries no [refresh_token] replaces
    the record of the session by one with the new access token and
    expiry and the refresh token it had; every other record and the
    pending authorizations stay as they were. *)
Theorem refresh_retains_refresh_token
    (sid : string) (s : Session) (tokenData : TokenData) (w w1 : World) :
  authSessions w !! sid = Some s ->
  expiresAt s - now w <= bufferMs ->
  refreshAccessToken env (refreshToken s) w = (Ok tokenData, w1) ->
  refresh_token tokenData = None ->
  let w' := (getValidAccessToken env sid w).2 in
  authSessions w' !! sid =
    Some {| accessToken := access_token tokenData;
            refreshToken := refreshToken s;
            expiresAt := now w1 + expires_in tokenData * 1000 |}
  /\ (forall other, other <> sid -> authSessions w' !! other = authSessions w !! other)
  /\ pendingAuthStates w' = pendingAuthStates w.
Proof.
  intros Hs Hnear Hrefresh _ w'. subst w'.
  rewrite (getValidAccessToken_refreshes sid s w Hs Hnear), Hrefresh.
  pose proof (refreshAccessToken_world (refreshToken s) w) as Hworld.
  rewrite Hrefresh in Hworld. simpl in Hworld. subst w1. simpl.
  split; [apply lookup_insert_eq |].
  split; [| reflexivity].
  intros other Hother. now apply lookup_insert_ne.
Qed.

(** *** [handleAuthCallback] *)

Lemma sweep_keeps (state : string) (pendingAuth : PendingAuth) (t : Z)
    (pending : gmap string PendingAuth) :
  pending !! state = Some pendingAuth ->
  t - createdAt pendingAuth <= pendingTtlMs ->
  sweep t pending !! state = Some pendingAuth.
Proof.
  intros Hfound Hyoung. unfold sweep. apply map_lookup_filter_Some.
  split; [exact Hfound | simpl; lia].
Qed.

Lemma sweep_drops (state : string) (pendingAuth : PendingAuth) (t : Z)
    (pending : gmap string PendingAuth) :
  pending !! state = Some pendingAuth ->
  pendingTtlMs < t - createdAt pendingAuth ->
  sweep t pending !! state = None.
Proof.
  intros Hfound Hold. unfold sweep. apply map_lookup_filter_None.
  right. intros p Hp. rewrite Hfound in Hp. injection Hp as <-. simpl. lia.
Qed.

Lemma handleAuthCallback_unknown (query : CallbackQuery) (code state : string) (w : World) :
  presents query code state ->
  pendingAuthStates w !! state = None ->
  handleAuthCallback env query w = (Ok invalidState, w).
Proof.
  intros (Herror & Hcode & Hstate) Hmiss. unfold handleAuthCallback.
  rewrite Herror, Hcode, Hstate. run. rewrite Hmiss. reflexivity.
Qed.

Lemma handleAuthCallback_found
    (query : CallbackQuery) (code state : string) (pendingAuth : PendingAuth) (w : World) :
  presents query code state ->
  pendingAuthStates w !! state = Some pendingAuth ->
  handleAuthCallback env query w =
  match exchangeCodeForToken env code (codeVerifier pendingAuth) w with
  | (Ok tokenData, w1) =>
      (Ok {| statusCode := 200; page := ConnectedPage |},
       withPendingAuthStates (delete state)
         (withAuthSessions
            (insert (sessionId pendingAuth)
               {| accessToken := access_token tokenData;
                  refreshToken := refresh_token tokenData;
                  expiresAt := now w1 + expires_in tokenData * 1000 |})
            (withPendingAuthStates (sweep (now w)) w1)))
  | (Throw message, w1) =>
      (Ok {| statusCode := 500; page := AuthenticationErrorPage message |},
       withPendingAuthStates (sweep (now w)) w1)
  end.
Proof.
  intros (Herror & Hcode & Hstate) Hfound. unfold handleAuthCallback.
  rewrite Herror, Hcode, Hstate. run. rewrite Hfound.
  rewrite exchangeCodeForToken_pending.
  destruct (exchangeCodeForToken env code (codeVerifier pendingAuth) w)
    as [[tokenData|message] w1]; reflexivity.
Qed.

(** Whatever the age of the entry found, the code is exchanged with its
    verifier: the clean-up that follows the lookup does not stop the
    handler. *)
Lemma handleAuthCallback_exchanges_whenever_found
    (query : CallbackQuery) (code state : string) (pendingAuth : PendingAuth) (w : World) :
  presents query code state ->
  pendingAuthStates w !! state = Some pendingAuth ->
  sent (handleAuthCallback env query w).2 =
  sent w ++ [exchangeRequest env code (codeVerifier pendingAuth)].
Proof.
  intros Hquery Hfound.
  rewrite (handleAuthCallback_found query code state pendingAuth w Hquery Hfound).
  pose proof (exchangeCodeForToken_world code (codeVerifier pendingAuth) w) as Hworld.
  destruct (exchangeCodeForToken env code (codeVerifier pendingAuth) w)
    as [[tokenData|message] w1]; simpl in Hworld; subst w1; reflexivity.
Qed.

(** C3 (amended): a pending authorization is used up by a successful
    exchange: when the callback finds the entry and the token exchange
    succeeds, the entry is removed, and a later callback presenting the
    same state token gets the 400 invalid-state answer, nothing else
    happening. *)
Theorem pending_authorization_consumed
    (query : CallbackQuery) (code state : string) (pendingAuth : PendingAuth)
    (tokenData : TokenData) (w w1 : World) :
  presents query code state ->
  pendingAuthStates w !! state = Some pendingAuth ->
  exchangeCodeForToken env code (codeVerifier pendingAuth) w = (Ok tokenData, w1) ->
  let w' := (handleAuthCallback env query w).2 in
  (handleAuthCallback env query w).1 = Ok {| statusCode := 200; page := ConnectedPage |}
  /\ pendingAuthStates w' !! state = None
  /\ forall query2 code2 w2,
       presents query2 code2 state ->
       pendingAuthStates w2 = pendingAuthStates w' ->
       handleAuthCallback env query2 w2 = (Ok invalidState, w2).
Proof.
  intros Hquery Hfound Hexchange w'. subst w'.
  rewrite (handleAuthCallback_found query code state pendingAuth w Hquery Hfound), Hexchange.
  simpl. split; [reflexivity |].
  split; [apply lookup_delete_eq |].
  intros query2 code2 w2 Hquery2 Hsame.
  apply (handleAuthCallback_unknown query2 code2 state w2 Hquery2).
  rewrite Hsame. apply lookup_delete_eq.
Qed.

(** C7: the expiry stored after a successful code exchange, and after a
    successful refresh, is the clock reading once the token response has
    arrived plus [expires_in] seconds turned into milliseconds; the
    response comes from the single request made by that call. *)
Theorem expiresAt_derived_once :
  (forall query code state pendingAuth tokenData w w1,
     presents query code state ->
     pendingAuthStates w !! state = Some pendingAuth ->
     exchangeCodeForToken env code (codeVerifier pendingAuth) w = (Ok tokenData, w1) ->
     let w' := (handleAuthCallback env query w).2 in
     authSessions w' !! sessionId pendingAuth =
       Some {| accessToken := access_token tokenData;
               refreshToken := refresh_token tokenData;
               expiresAt := now w1 + expires_in tokenData * 1000 |}
     /\ sent w' = sent w ++ [exchangeRequest env code (codeVerifier pendingAuth)]
     /\ tokenEndpoint w' = tail (tokenEndpoint w))
  /\ (forall sid s tokenData w w1,
        authSessions w !! sid = Some s ->
        expiresAt s - now w <= bufferMs ->
        refreshAccessToken env (refreshToken s) w = (Ok tokenData, w1) ->
        let w' := (getValidAccessToken env sid w).2 in
        (exists s', authSessions w' !! sid = Some s'
                    /\ expiresAt s' = now w1 + expires_in tokenData * 1000)
        /\ sent w' = sent w ++ [refreshRequest env (refreshToken s)]
        /\ tokenEndpoint w' = tail (tokenEndpoint w)).
Proof.
  split.
  - intros query code state pendingAuth tokenData w w1 Hquery Hfound Hexchange w'. subst w'.
    rewrite (handleAuthCallback_found query code state pendingAuth w Hquery Hfound), Hexchange.
    pose proof (exchangeCodeForToken_world code (codeVerifier pendingAuth) w) as Hworld.
    rewrite Hexchange in Hworld. simpl in Hworld. subst w1. simpl.
    split; [apply lookup_insert_eq |]. split; reflexivity.
  - intros sid s tokenData w w1 Hs Hnear Hrefresh w'. subst w'.
    rewrite (getValidAccessToken_refreshes sid s w Hs Hnear), Hrefresh.
    pose proof (refreshAccessToken_world (refreshToken s) w) as Hworld.
    rewrite Hrefresh in Hworld. simpl in Hworld. subst w1. simpl.
    split; [| split; reflexivity].
    eexists. split; [apply lookup_insert_eq | reflexivity].
Qed.

(** C10 (amended): when the callback finds an entry and the token
    exchange fails, it answers 500 and the session token store is what
    it was; if the entry is at most ten minutes old it is still in the
    registry. *)
Theorem failed_exchange_keeps_pending
    (query : CallbackQuery) (code state : string) (pendingAuth : PendingAuth)
    (message : string) (w w1 : World) :
  presents query code state ->
  pendingAuthStates w !! state = Some pendingAuth ->
  exchangeCodeForToken env code (codeVerifier pendingAuth) w = (Throw message, w1) ->
  let w' := (handleAuthCallback env query w).2 in
  (handleAuthCallback env query w).1 =
    Ok {| statusCode := 500; page := AuthenticationErrorPage message |}
  /\ authSessions w' = authSessions w
  /\ (now w - createdAt pendingAuth <= pendingTtlMs ->
      pendingAuthStates w' !! state = Some pendingAuth).
Proof.
  intros Hquery Hfound Hexchange w'. subst w'.
  rewrite (handleAuthCallback_found query code state pendingAuth w Hquery Hfound), Hexchange.
  pose proof (exchangeCodeForToken_world code (codeVerifier pendingAuth) w) as Hworld.
  rewrite Hexchange in Hworld. simpl in Hworld. subst w1. simpl.
  split; [reflexivity |]. split; [reflexivity |].
  intros Hyoung. now apply sweep_keeps.
Qed.

(** *** The authentication gate and the forwarded requests *)

Lemma canvaApiRequest_gate_fails
    (sid endpoint method message : string) (body : option Json) (w w1 : World) :
  getValidAccessToken env sid w = (Throw message, w1) ->
  canvaApiRequest env sid endpoint method body w = (Throw message, w1).
Proof. intros Hgate. unfold canvaApiRequest. run. now rewrite Hgate. Qed.

Lemma canvaApiRequest_world
    (sid endpoint method token : string) (body : option Json) (w w1 : World) :
  getValidAccessToken env sid w = (Ok token, w1) ->
  (canvaApiRequest env sid endpoint method body w).2 =
  apiSettled (apiRequest token endpoint method body) w1.
Proof.
  intros Hgate. unfold canvaApiRequest. run. rewrite Hgate, fetchApi_eq.
  destruct (apiAnswer w1) as [response|]; [| reflexivity].
  destruct (negb (ok response)); [reflexivity |].
  destruct (status response =? 204); [reflexivity |].
  destruct (json response); reflexivity.
Qed.

(** C9: once the gate has produced the access token (the one on record
    when it returns), the request handed to [fetch] carries
    [Authorization: Bearer <token>] and no other Authorization header;
    a response outside 200..299 makes the call throw an error with the
    status and the body; a 204 makes it return [null]. *)
Theorem canvaApiRequest_forwarding
    (sid endpoint method token : string) (body : option Json) (w w1 : World) :
  getValidAccessToken env sid w = (Ok token, w1) ->
  (exists s, authSessions w1 !! sid = Some s /\ accessToken s = token)
  /\ (exists request,
        sent (canvaApiRequest env sid endpoint method body w).2 = sent w1 ++ [request]
        /\ url request = CANVA_API_BASE +:+ endpoint
        /\ In ("Authorization", "Bearer " +:+ token) (headers request)
        /\ forall value, In ("Authorization", value) (headers request) ->
                         value = "Bearer " +:+ token)
  /\ forall reply later response,
       canvaApi w1 = reply :: later ->
       settled reply = Fulfilled response ->
       (ok response = false ->
          (canvaApiRequest env sid endpoint method body w).1 =
          Throw ("Canva API error: " +:+ pretty (status response) +:+ " " +:+ text response))
       /\ (status response = 204 ->
            (canvaApiRequest env sid endpoint method body w).1 = Ok JNull).
Proof.
  intros Hgate. split; [exact (getValidAccessToken_current sid token w w1 Hgate) |].
  split.
  - exists (apiRequest token endpoint method body).
    rewrite (canvaApiRequest_world sid endpoint method token body w w1 Hgate).
    split; [reflexivity |]. split; [reflexivity |].
    split; [now left |].
    intros value [Hhead | Hrest]; [now injection Hhead as <- |].
    simpl in Hrest.
    destruct (truthy body && negb (String.eqb method "GET")); simpl in Hrest;
      [destruct Hrest as [Hrest | []]; discriminate | destruct Hrest].
  - intros reply later response Hhead Hsettled.
    unfold canvaApiRequest. run. rewrite Hgate, fetchApi_eq.
    unfold apiAnswer. rewrite Hhead, Hsettled.
    split.
    + intros Hbad. now rewrite Hbad.
    + intros H204. unfold ok. rewrite H204. reflexivity.
Qed.

Lemma callTool_switch (sid : string) (s : Session) (call : ToolCall) (w : World) :
  authSessions w !! sid = Some s ->
  callTool env sid (Accepted call) w =
  match canvaApiRequest env sid (forwarded call).1.1 (forwarded call).1.2 (forwarded call).2 w with
  | (Ok data, w1) => (caseReturn call data, w1)
  | (Throw message, w1) => (Throw message, w1)
  end.
Proof.
  intros Hs. unfold callTool, toolSwitch. run. rewrite Hs.
  destruct (forwarded call) as [[endpoint method] body]. simpl.
  destruct (canvaApiRequest env sid endpoint method body w) as [[data|message] w1]; reflexivity.
Qed.

Lemma caseReturn_no_prompt (call : ToolCall) (data : Json) (text : string) :
  caseReturn call data <> Ok (TextContent text).
Proof.
  unfold caseReturn. destruct (readPath (Some data) (membersRead call)); discriminate.
Qed.

(** C5 (amended): when the refresh fails, the call fails with the
    refresh error and the record of the session stays in the store as
    it was; the next protected call of the session, the token still
    being inside the five minute buffer, is not answered with an
    authorization URL and files no pending authorization: it starts by
    handing the token endpoint another refresh request. *)
Theorem refresh_failure_keeps_session
    (sid : string) (s : Session) (call : ToolCall) (message : string) (w w1 : World) :
  authSessions w !! sid = Some s ->
  expiresAt s - now w <= bufferMs ->
  refreshAccessToken env (refreshToken s) w = (Throw message, w1) ->
  callTool env sid (Accepted call) w = (Throw message, w1)
  /\ authSessions w1 = authSessions w
  /\ forall call2 w2,
       authSessions w2 = authSessions w1 ->
       expiresAt s - now w2 <= bufferMs ->
       let next := callTool env sid (Accepted call2) w2 in
       (exists rest, sent next.2 = sent w2 ++ refreshRequest env (refreshToken s) :: rest)
       /\ pendingAuthStates next.2 = pendingAuthStates w2
       /\ forall text, next.1 <> Ok (TextContent text).
Proof.
  intros Hs Hnear Hrefresh.
  pose proof (refreshAccessToken_world (refreshToken s) w) as Hworld.
  rewrite Hrefresh in Hworld. simpl in Hworld.
  assert (Hkept : authSessions w1 = authSessions w) by now subst w1.
  split.
  - rewrite (callTool_switch sid s call w Hs).
    rewrite (canvaApiRequest_gate_fails sid _ _ message _ w w1); [reflexivity |].
    now rewrite (getValidAccessToken_refreshes sid s w Hs Hnear), Hrefresh.
  - split; [exact Hkept |].
    intros call2 w2 Hsame Hnear2 next. subst next.
    assert (Hs2 : authSessions w2 !! sid = Some s) by now rewrite Hsame, Hkept.
    rewrite (callTool_switch sid s call2 w2 Hs2).
    pose proof (getValidAccessToken_refreshes sid s w2 Hs2 Hnear2) as Hgate.
    pose proof (refreshAccessToken_world (refreshToken s) w2) as Hworld2.
    destruct (refreshAccessToken env (refreshToken s) w2) as [[tokenData|message2] w3];
      simpl in Hworld2; subst w3.
    + pose proof (canvaApiRequest_world sid (forwarded call2).1.1 (forwarded call2).1.2
                    _ (forwarded call2).2 w2 _ Hgate) as Hafter.
      destruct (canvaApiRequest env sid _ _ _ w2) as [[data|message2] w3];
        simpl in Hafter; subst w3; simpl;
        (split; [eexists; rewrite <- app_assoc; reflexivity |]);
        (split; [reflexivity | intros text; first [apply caseReturn_no_prompt | discriminate]]).
    + rewrite (canvaApiRequest_gate_fails sid _ _ message2 _ w2 _ Hgate). simpl.
      split; [exists []; reflexivity |].
      split; [reflexivity | intros text; discriminate].
Qed.

(** *** The authorization URL *)

(** C8 (amended): building the authorization URL is plain string
    composition that rejects nothing: for every configuration it
    returns the authorize endpoint followed by the seven parameters,
    the scope being the ten fixed scopes joined by a space; with
    [CANVA_CLIENT_ID] unset the URL is built all the same, its
    [client_id] parameter empty. *)
Theorem generateAuthUrl_shape :
  (forall state codeVerifier,
     generateAuthUrl env state codeVerifier =
       "https://www.canva.com/api/oauth/authorize?client_id="
       +:+ Node.formEncode (CANVA_CLIENT_ID env)
       +:+ "&response_type=code&redirect_uri="
       +:+ Node.formEncode (CANVA_REDIRECT_URI env)
       +:+ "&state=" +:+ Node.formEncode state
       +:+ "&scope=asset%3Aread+asset%3Awrite+comment%3Aread+comment%3Awrite+design%3Acontent%3Aread+design%3Acontent%3Awrite+design%3Ameta%3Aread+folder%3Aread+folder%3Awrite+profile%3Aread&code_challenge="
       +:+ Node.formEncode (generateCodeChallenge codeVerifier)
       +:+ "&code_challenge_method=S256")
  /\ (forall secret redirect state codeVerifier,
        exists rest,
          generateAuthUrl
            {| env_CANVA_CLIENT_ID := None;
               env_CANVA_CLIENT_SECRET := secret;
               env_CANVA_REDIRECT_URI := redirect |} state codeVerifier =
          "https://www.canva.com/api/oauth/authorize?client_id=&response_type=code" +:+ rest)
  /\ length scopes = 10%nat.
Proof.
  assert (Hshape : forall e state codeVerifier,
    generateAuthUrl e state codeVerifier =
       "https://www.canva.com/api/oauth/authorize?client_id="
       +:+ Node.formEncode (CANVA_CLIENT_ID e)
       +:+ "&response_type=code&redirect_uri="
       +:+ Node.formEncode (CANVA_REDIRECT_URI e)
       +:+ "&state=" +:+ Node.formEncode state
       +:+ "&scope=asset%3Aread+asset%3Awrite+comment%3Aread+comment%3Awrite+design%3Acontent%3Aread+design%3Acontent%3Awrite+design%3Ameta%3Aread+folder%3Aread+folder%3Awrite+profile%3Aread&code_challenge="
       +:+ Node.formEncode (generateCodeChallenge codeVerifier)
       +:+ "&code_challenge_method=S256").
  { intros e state codeVerifier.
    unfold generateAuthUrl, Node.paramsToString.
    cbn [map Node.joinWith fst snd].
    change (Node.formEncode "client_id") with "client_id".
    change (Node.formEncode "response_type") with "response_type".
    change (Node.formEncode "code") with "code".
    change (Node.formEncode "redirect_uri") with "redirect_uri".
    change (Node.formEncode "state") with "state".
    change (Node.formEncode "scope") with "scope".
    change (Node.formEncode "code_challenge") with "code_challenge".
    change (Node.formEncode "code_challenge_method") with "code_challenge_method".
    change (Node.formEncode "S256") with "S256".
    change (Node.formEncode (Node.joinWith " " scopes)) with
      "asset%3Aread+asset%3Awrite+comment%3Aread+comment%3Awrite+design%3Acontent%3Aread+design%3Acontent%3Awrite+design%3Ameta%3Aread+folder%3Aread+folder%3Awrite+profile%3Aread".
    rewrite !append_assoc. reflexivity. }
  split; [apply Hshape |]. split; [| reflexivity].
  intros secret redirect state codeVerifier. rewrite Hshape.
  eexists. reflexivity.
Qed.

End Properties.

(** ** The properties at work, and where the code departs from the
    specification *)

Section Runs.

Import Scenario.

(** C2, the code at an expired entry: the entry was created at 0 and
    the callback arrives at 600001, more than ten minutes later; the
    lookup comes before the clean-up, so the code is exchanged, the
    session is stored and the answer is 200. *)
Theorem expired_state_still_exchanged :
  pendingAuthStates (awaiting 600001 [grantAR]) !! "abc" = Some abc
  /\ pendingTtlMs < now (awaiting 600001 [grantAR]) - createdAt abc
  /\ (handleAuthCallback env callback (awaiting 600001 [grantAR])).1 =
       Ok {| statusCode := 200; page := ConnectedPage |}
  /\ sent (handleAuthCallback env callback (awaiting 600001 [grantAR])).2 =
       [exchangeRequest env "c0de" "v1"]
  /\ authSessions (handleAuthCallback env callback (awaiting 600001 [grantAR])).2 =
       {[ "s1" := {| accessToken := "A"; refreshToken := Some "R"; expiresAt := 4200251 |} ]}.
Proof. vm_compute. repeat split. Qed.

(** C3 as stated fails: the first callback finds the entry, the
    exchange fails, the entry stays, and the second callback with the
    same state token is answered 200 rather than 400. *)
Lemma second_callback_after_failed_exchange :
  (handleAuthCallback env callback (awaiting 1000 [outage; grantAR])).1 =
    Ok {| statusCode := 500;
          page := AuthenticationErrorPage
            "Failed to exchange code for token: Service Unavailable - upstream timeout" |}
  /\ pendingAuthStates (handleAuthCallback env callback (awaiting 1000 [outage; grantAR])).2
       !! "abc" = Some abc
  /\ (handleAuthCallback env callback
        (handleAuthCallback env callback (awaiting 1000 [outage; grantAR])).2).1 =
       Ok {| statusCode := 200; page := ConnectedPage |}.
Proof. vm_compute. repeat split. Qed.

(** C3 (amended) at work. *)
Lemma pending_authorization_consumed_run :
  (presents callback "c0de" "abc"
   /\ pendingAuthStates (awaiting 1000 [grantAR]) !! "abc" = Some abc
   /\ exchangeCodeForToken env "c0de" (codeVerifier abc) (awaiting 1000 [grantAR]) =
        (Ok granted, tokenSettled (exchangeRequest env "c0de" "v1") (awaiting 1000 [grantAR])))
  /\ (handleAuthCallback env callback (awaiting 1000 [grantAR])).1 =
       Ok {| statusCode := 200; page := ConnectedPage |}
  /\ pendingAuthStates (handleAuthCallback env callback (awaiting 1000 [grantAR])).2 !! "abc"
       = None
  /\ forall query2 code2 w2,
       presents query2 code2 "abc" ->
       pendingAuthStates w2 =
         pendingAuthStates (handleAuthCallback env callback (awaiting 1000 [grantAR])).2 ->
       handleAuthCallback env query2 w2 = (Ok invalidState, w2).
Proof.
  split; [repeat split |].
  apply (pending_authorization_consumed env callback "c0de" "abc" abc granted
           (awaiting 1000 [grantAR])
           (tokenSettled (exchangeRequest env "c0de" "v1") (awaiting 1000 [grantAR])));
    [repeat split | reflexivity | reflexivity].
Defined.

(** C4 as stated fails on the boundary: with exactly five minutes left
    the token is refreshed. *)
Lemma refresh_with_exactly_five_minutes_left :
  authSessions (signedIn 300000 [grantA2] []) !! "s1" = Some (s1 300000)
  /\ expiresAt (s1 300000) - now (signedIn 300000 [grantA2] []) = 5 * 60 * 1000
  /\ sent (getValidAccessToken env "s1" (signedIn 300000 [grantA2] [])).2 =
       [refreshRequest env (Some "R")]
  /\ authSessions (getValidAccessToken env "s1" (signedIn 300000 [grantA2] [])).2 =
       {[ "s1" := {| accessToken := "A2"; refreshToken := Some "R"; expiresAt := 3600250 |} ]}.
Proof. vm_compute. repeat split. Qed.

(** C4 (amended) at work: four minutes left, one refresh; ten minutes
    left, none. *)
Lemma getValidAccessToken_refresh_iff_run :
  (authSessions (signedIn 240000 [grantA2] []) !! "s1" = Some (s1 240000)
   /\ authSessions (signedIn 600000 [grantA2] []) !! "s1" = Some (s1 600000))
  /\ sent (getValidAccessToken env "s1" (signedIn 240000 [grantA2] [])).2 =
       [refreshRequest env (Some "R")]
  /\ getValidAccessToken env "s1" (signedIn 240000 [grantA2] []) =
       (Ok "A2",
        withAuthSessions
          (insert "s1" {| accessToken := "A2"; refreshToken := Some "R"; expiresAt := 3600250 |})
          (tokenSettled (refreshRequest env (Some "R")) (signedIn 240000 [grantA2] [])))
  /\ getValidAccessToken env "s1" (signedIn 600000 [grantA2] []) =
       (Ok "A", signedIn 600000 [grantA2] []).
Proof.
  split; [split; reflexivity |].
  destruct (getValidAccessToken_refresh_iff env "s1" (s1 240000) (signedIn 240000 [grantA2] [])
              eq_refl) as [Hnear _].
  destruct (getValidAccessToken_refresh_iff env "s1" (s1 600000) (signedIn 600000 [grantA2] [])
              eq_refl) as [_ Hfar].
  assert (H4 : expiresAt (s1 240000) - now (signedIn 240000 [grantA2] []) <= bufferMs)
    by (vm_compute; discriminate).
  destruct (Hnear H4) as [Hsent Hstored].
  split; [exact Hsent |].
  split.
  - exact (Hstored renewed
             (tokenSettled (refreshRequest env (Some "R")) (signedIn 240000 [grantA2] []))
             eq_refl).
  - apply Hfar. vm_compute. reflexivity.
Defined.

(** C5 as stated fails: after a failed refresh the next call of the
    session is not answered with an authorization URL; it fails on a
    second refresh request. *)
Lemma second_call_after_failed_refresh :
  (callTool env "s1" (Accepted (GetDesign "D1")) (signedIn 240000 [refusal; refusal] [])).1 =
    Throw "Failed to refresh token: Bad Request - invalid_grant"
  /\ authSessions
       (callTool env "s1" (Accepted (GetDesign "D1")) (signedIn 240000 [refusal; refusal] [])).2
       !! "s1" = Some (s1 240000)
  /\ (callTool env "s1" (Accepted (GetDesign "D1"))
        (callTool env "s1" (Accepted (GetDesign "D1"))
           (signedIn 240000 [refusal; refusal] [])).2).1 =
       Throw "Failed to refresh token: Bad Request - invalid_grant"
  /\ sent
       (callTool env "s1" (Accepted (GetDesign "D1"))
          (callTool env "s1" (Accepted (GetDesign "D1"))
             (signedIn 240000 [refusal; refusal] [])).2).2 =
       [refreshRequest env (Some "R"); refreshRequest env (Some "R")]
  /\ pendingAuthStates
       (callTool env "s1" (Accepted (GetDesign "D1"))
          (callTool env "s1" (Accepted (GetDesign "D1"))
             (signedIn 240000 [refusal; refusal] [])).2).2 = ∅.
Proof. vm_compute. repeat split. Qed.

(** C5 (amended) at work. *)
Lemma refresh_failure_keeps_session_run :
  (authSessions (signedIn 240000 [refusal] []) !! "s1" = Some (s1 240000)
   /\ expiresAt (s1 240000) - now (signedIn 240000 [refusal] []) <= bufferMs
   /\ refreshAccessToken env (refreshToken (s1 240000)) (signedIn 240000 [refusal] []) =
        (Throw "Failed to refresh token: Bad Request - invalid_grant",
         tokenSettled (refreshRequest env (Some "R")) (signedIn 240000 [refusal] [])))
  /\ callTool env "s1" (Accepted (GetDesign "D1")) (signedIn 240000 [refusal] []) =
       (Throw "Failed to refresh token: Bad Request - invalid_grant",
        tokenSettled (refreshRequest env (Some "R")) (signedIn 240000 [refusal] []))
  /\ authSessions (tokenSettled (refreshRequest env (Some "R")) (signedIn 240000 [refusal] []))
       = authSessions (signedIn 240000 [refusal] [])
  /\ forall call2 w2,
       authSessions w2 =
         authSessions (tokenSettled (refreshRequest env (Some "R"))
                         (signedIn 240000 [refusal] [])) ->
       expiresAt (s1 240000) - now w2 <= bufferMs ->
       (exists rest,
          sent (callTool env "s1" (Accepted call2) w2).2 =
          sent w2 ++ refreshRequest env (refreshToken (s1 240000)) :: rest)
       /\ pendingAuthStates (callTool env "s1" (Accepted call2) w2).2 = pendingAuthStates w2
       /\ forall text, (callTool env "s1" (Accepted call2) w2).1 <> Ok (TextContent text).
Proof.
  split; [split; [reflexivity | split; [vm_compute; discriminate | reflexivity]] |].
  apply (refresh_failure_keeps_session env "s1" (s1 240000) (GetDesign "D1")
           "Failed to refresh token: Bad Request - invalid_grant"
           (signedIn 240000 [refusal] [])
           (tokenSettled (refreshRequest env (Some "R")) (signedIn 240000 [refusal] [])));
    [reflexivity | vm_compute; discriminate | reflexivity].
Defined.

(** C6 at work: the refresh response has only [access_token] and
    [expires_in]; the record keeps refresh token [R]. *)
Lemma refresh_retains_refresh_token_run :
  (authSessions (signedIn 240000 [grantA2] []) !! "s1" = Some (s1 240000)
   /\ expiresAt (s1 240000) - now (signedIn 240000 [grantA2] []) <= bufferMs
   /\ refreshAccessToken env (refreshToken (s1 240000)) (signedIn 240000 [grantA2] []) =
        (Ok renewed, tokenSettled (refreshRequest env (Some "R")) (signedIn 240000 [grantA2] []))
   /\ refresh_token renewed = None)
  /\ authSessions (getValidAccessToken env "s1" (signedIn 240000 [grantA2] [])).2 !! "s1" =
       Some {| accessToken := "A2"; refreshToken := Some "R"; expiresAt := 3600250 |}
  /\ (forall other,
        other <> "s1" ->
        authSessions (getValidAccessToken env "s1" (signedIn 240000 [grantA2] [])).2 !! other =
        authSessions (signedIn 240000 [grantA2] []) !! other)
  /\ pendingAuthStates (getValidAccessToken env "s1" (signedIn 240000 [grantA2] [])).2 =
       pendingAuthStates (signedIn 240000 [grantA2] []).
Proof.
  split; [split; [reflexivity | split; [vm_compute; discriminate | split; reflexivity]] |].
  apply (refresh_retains_refresh_token env "s1" (s1 240000) renewed
           (signedIn 240000 [grantA2] [])
           (tokenSettled (refreshRequest env (Some "R")) (signedIn 240000 [grantA2] [])));
    [reflexivity | vm_compute; discriminate | reflexivity | reflexivity].
Defined.

(** C7 at work: the exchange answered at 1250 with [expires_in] 3600
    stores 1250 + 3600000; the refresh answered at 250 stores
    250 + 3600000. *)
Lemma expiresAt_derived_once_run :
  (authSessions (handleAuthCallback env callback (awaiting 1000 [grantAR])).2 !! "s1" =
     Some {| accessToken := "A"; refreshToken := Some "R"; expiresAt := 1250 + 3600 * 1000 |}
   /\ sent (handleAuthCallback env callback (awaiting 1000 [grantAR])).2 =
        sent (awaiting 1000 [grantAR]) ++ [exchangeRequest env "c0de" "v1"]
   /\ tokenEndpoint (handleAuthCallback env callback (awaiting 1000 [grantAR])).2 = [])
  /\ (exists s',
        authSessions (getValidAccessToken env "s1" (signedIn 240000 [grantA2] [])).2 !! "s1"
          = Some s'
        /\ expiresAt s' = 250 + 3600 * 1000)
  /\ sent (getValidAccessToken env "s1" (signedIn 240000 [grantA2] [])).2 =
       sent (signedIn 240000 [grantA2] []) ++ [refreshRequest env (Some "R")]
  /\ tokenEndpoint (getValidAccessToken env "s1" (signedIn 240000 [grantA2] [])).2 = [].
Proof.
  destruct (expiresAt_derived_once env) as [Hexchange Hrefresh].
  split.
  - apply (Hexchange callback "c0de" "abc" abc granted (awaiting 1000 [grantAR])
             (tokenSettled (exchangeRequest env "c0de" "v1") (awaiting 1000 [grantAR])));
      [repeat split | reflexivity | reflexivity].
  - apply (Hrefresh "s1" (s1 240000) renewed (signedIn 240000 [grantA2] [])
             (tokenSettled (refreshRequest env (Some "R")) (signedIn 240000 [grantA2] [])));
      [reflexivity | vm_compute; discriminate | reflexivity].
Defined.

(** C8 as stated fails: with [CANVA_CLIENT_ID] unset nothing is
    rejected; the prompt carries a URL whose [client_id] is empty. *)
Lemma unset_client_id_is_not_rejected :
  CANVA_CLIENT_ID unconfigured = ""
  /\ (callTool unconfigured "s1" (Accepted (GetDesign "D1")) idle).1 =
       Ok (TextContent
             "Please authenticate with Canva to use this feature. Visit: https://www.canva.com/api/oauth/authorize?client_id=&response_type=code&redirect_uri=http%3A%2F%2F0.0.0.0%3A8001%2Fauth%2Fcallback&state=030a11181f262d343b424950575e656c&scope=asset%3Aread+asset%3Awrite+comment%3Aread+comment%3Awrite+design%3Acontent%3Aread+design%3Acontent%3Awrite+design%3Ameta%3Aread+folder%3Aread+folder%3Awrite+profile%3Aread&code_challenge=FT2zlR2sAHVrK2-O8jhGvvNPCuTHSSOjgsht8aU0KIk&code_challenge_method=S256").
Proof. vm_compute. split; reflexivity. Qed.

(** C9 at work: the commit of an editing transaction is forwarded with
    the bearer token [A]; the API answers 204 and the call returns
    [null]; answered 403 it throws with status and body. *)
Lemma canvaApiRequest_forwarding_run :
  getValidAccessToken env "s1" (signedIn 600000 [] [noContent]) =
    (Ok "A", signedIn 600000 [] [noContent])
  /\ (exists request,
        sent (canvaApiRequest env "s1" "/designs/edit/T1/commit" "POST" None
                (signedIn 600000 [] [noContent])).2 = [request]
        /\ url request = "https://api.canva.com/rest/v1/designs/edit/T1/commit"
        /\ In ("Authorization", "Bearer A") (headers request))
  /\ (canvaApiRequest env "s1" "/designs/edit/T1/commit" "POST" None
        (signedIn 600000 [] [noContent])).1 = Ok JNull
  /\ (canvaApiRequest env "s1" "/designs/edit/T1/commit" "POST" None
        (signedIn 600000 [] [forbidden])).1 = Throw "Canva API error: 403 missing scope".
Proof.
  assert (Hgate : forall replies,
            getValidAccessToken env "s1" (signedIn 600000 [] replies) =
            (Ok "A", signedIn 600000 [] replies)) by (intros replies; reflexivity).
  split; [apply Hgate |].
  destruct (canvaApiRequest_forwarding env "s1" "/designs/edit/T1/commit" "POST" "A" None
              (signedIn 600000 [] [noContent]) (signedIn 600000 [] [noContent])
              (Hgate [noContent])) as (_ & (request & Hsent & Hurl & Hbearer & _) & Hreply).
  destruct (canvaApiRequest_forwarding env "s1" "/designs/edit/T1/commit" "POST" "A" None
              (signedIn 600000 [] [forbidden]) (signedIn 600000 [] [forbidden])
              (Hgate [forbidden])) as (_ & _ & Hrefused).
  split; [exists request; repeat split; assumption |].
  split.
  - apply (Hreply noContent [] _ eq_refl eq_refl). reflexivity.
  - apply (Hrefused forbidden [] _ eq_refl eq_refl). reflexivity.
Defined.

(** C10 as stated fails: the entry found is older than ten minutes,
    the exchange fails, and the clean-up has removed the entry. *)
Lemma failed_exchange_of_expired_entry :
  pendingAuthStates (awaiting 600001 [refusal]) !! "abc" = Some abc
  /\ (handleAuthCallback env callback (awaiting 600001 [refusal])).1 =
       Ok {| statusCode := 500;
             page := AuthenticationErrorPage
               "Failed to exchange code for token: Bad Request - invalid_grant" |}
  /\ pendingAuthStates (handleAuthCallback env callback (awaiting 600001 [refusal])).2
       !! "abc" = None.
Proof. vm_compute. repeat split. Qed.

(** C10 (amended) at work: the entry is exactly ten minutes old and
    stays; with the entry of 600001 ms the answer and the store are the
    same. *)
Lemma failed_exchange_keeps_pending_run :
  (presents callback "c0de" "abc"
   /\ pendingAuthStates (awaiting 600000 [refusal]) !! "abc" = Some abc
   /\ exchangeCodeForToken env "c0de" (codeVerifier abc) (awaiting 600000 [refusal]) =
        (Throw "Failed to exchange code for token: Bad Request - invalid_grant",
         tokenSettled (exchangeRequest env "c0de" "v1") (awaiting 600000 [refusal]))
   /\ now (awaiting 600000 [refusal]) - createdAt abc <= pendingTtlMs)
  /\ ((handleAuthCallback env callback (awaiting 600000 [refusal])).1 =
        Ok {| statusCode := 500;
              page := AuthenticationErrorPage
                "Failed to exchange code for token: Bad Request - invalid_grant" |}
      /\ authSessions (handleAuthCallback env callback (awaiting 600000 [refusal])).2 =
           authSessions (awaiting 600000 [refusal])
      /\ pendingAuthStates (handleAuthCallback env callback (awaiting 600000 [refusal])).2
           !! "abc" = Some abc)
  /\ (handleAuthCallback env callback (awaiting 600001 [refusal])).1 =
       Ok {| statusCode := 500;
             page := AuthenticationErrorPage
               "Failed to exchange code for token: Bad Request - invalid_grant" |}
  /\ authSessions (handleAuthCallback env callback (awaiting 600001 [refusal])).2 =
       authSessions (awaiting 600001 [refusal]).
Proof.
  assert (Hquery : presents callback "c0de" "abc") by (repeat split).
  assert (Hyoung : now (awaiting 600000 [refusal]) - createdAt abc <= pendingTtlMs)
    by (vm_compute; discriminate).
  destruct (failed_exchange_keeps_pending env callback "c0de" "abc" abc
              "Failed to exchange code for token: Bad Request - invalid_grant"
              (awaiting 600000 [refusal])
              (tokenSettled (exchangeRequest env "c0de" "v1") (awaiting 600000 [refusal]))
              Hquery eq_refl eq_refl) as (Hreply & Hstore & Hkept).
  destruct (failed_exchange_keeps_pending env callback "c0de" "abc" abc
              "Failed to exchange code for token: Bad Request - invalid_grant"
              (awaiting 600001 [refusal])
              (tokenSettled (exchangeRequest env "c0de" "v1") (awaiting 600001 [refusal]))
              Hquery eq_refl eq_refl) as (Hreply' & Hstore' & _).
  split; [split; [exact Hquery | split; [reflexivity | split; [reflexivity | exact Hyoung]]] |].
  split; [split; [exact Hreply | split; [exact Hstore | exact (Hkept Hyoung)]] |].
  split; [exact Hreply' | exact Hstore'].
Defined.

End Runs.

(** ** Further properties

    *** Encodings *)

Lemma list_ind3 {A} (P : list A -> Prop) :
  P [] -> (forall x, P [x]) -> (forall x y, P [x; y]) ->
  (forall x y z l, P l -> P (x :: y :: z :: l)) -> forall l, P l.
Proof.
  intros H0 H1 H2 H3. fix IH 1.
  intros [|x [|y [|z l]]];
    [exact H0 | exact (H1 x) | exact (H2 x y) | exact (H3 x y z l (IH l))].
Qed.

Lemma toBase64url_length (buf : Node.Buffer) :
  String.length (Node.toBase64url buf) = ((4 * length buf + 2) / 3)%nat.
Proof.
  induction buf as [| x | x y | x y z l IH] using list_ind3; try reflexivity.
  cbn [Node.toBase64url String.length length]. rewrite IH.
  replace (4 * S (S (S (length l))) + 2)%nat with ((4 * length l + 2) + 4 * 3)%nat by lia.
  rewrite Nat.div_add by lia. lia.
Qed.

Lemma sextet_base64url (i : Z) :
  0 <= i < 64 -> isBase64url (Node.byteOf (Node.sextet i)) = true.
Proof.
  intros Hi. assert (Hn : (Z.to_nat i < 64)%nat) by lia.
  replace i with (Z.of_nat (Z.to_nat i)) by lia.
  revert Hn. generalize (Z.to_nat i). clear. intros n Hn.
  do 64 (destruct n as [|n]; [reflexivity |]). lia.
Qed.

Lemma allBytes_cons p c s :
  allBytes p (String c s) = p (Node.byteOf c) && allBytes p s.
Proof. reflexivity. Qed.

Lemma toBase64url_alphabet (buf : Node.Buffer) :
  Forall isByte buf -> allBytes isBase64url (Node.toBase64url buf) = true.
Proof.
  unfold isByte.
  induction buf as [| x | x y | x y z l IH] using list_ind3; intros Hbytes.
  - reflexivity.
  - inversion_clear Hbytes as [|? ? Hx _].
    cbn [Node.toBase64url]. rewrite !allBytes_cons.
    rewrite !sextet_base64url by (Z.div_mod_to_equations; lia). reflexivity.
  - inversion_clear Hbytes as [|? ? Hx Hrest]. inversion_clear Hrest as [|? ? Hy _].
    cbn [Node.toBase64url]. rewrite !allBytes_cons.
    rewrite !sextet_base64url by (Z.div_mod_to_equations; lia). reflexivity.
  - inversion_clear Hbytes as [|? ? Hx Hrest]. inversion_clear Hrest as [|? ? Hy Hrest'].
    inversion_clear Hrest' as [|? ? Hz Hl].
    cbn [Node.toBase64url]. rewrite !allBytes_cons.
    rewrite !sextet_base64url by (Z.div_mod_to_equations; lia).
    rewrite IH by assumption. reflexivity.
Qed.

Lemma hexDigit_lower (i : Z) :
  0 <= i < 16 -> isHexDigit (Node.byteOf (Node.pick Node.hexLower i)) = true.
Proof.
  intros Hi. assert (Hn : (Z.to_nat i < 16)%nat) by lia.
  replace i with (Z.of_nat (Z.to_nat i)) by lia.
  revert Hn. generalize (Z.to_nat i). clear. intros n Hn.
  do 16 (destruct n as [|n]; [reflexivity |]). lia.
Qed.

Lemma hexDigit_upper (i : Z) :
  0 <= i < 16 -> Node.isUnreserved (Node.byteOf (Node.pick Node.hexUpper i)) = true.
Proof.
  intros Hi. assert (Hn : (Z.to_nat i < 16)%nat) by lia.
  replace i with (Z.of_nat (Z.to_nat i)) by lia.
  revert Hn. generalize (Z.to_nat i). clear. intros n Hn.
  do 16 (destruct n as [|n]; [reflexivity |]). lia.
Qed.

Lemma toHex_length (buf : Node.Buffer) :
  String.length (Node.toHex buf) = (2 * length buf)%nat.
Proof.
  induction buf as [|b buf IH]; [reflexivity |].
  cbn [Node.toHex fold_right String.length length]. fold (Node.toHex buf). lia.
Qed.

Lemma toHex_digits (buf : Node.Buffer) :
  Forall isByte buf -> allBytes isHexDigit (Node.toHex buf) = true.
Proof.
  unfold isByte. induction 1 as [|b buf Hb _ IH]; [reflexivity |].
  cbn [Node.toHex fold_right]. fold (Node.toHex buf). rewrite !allBytes_cons.
  rewrite !hexDigit_lower by (Z.div_mod_to_equations; lia). exact IH.
Qed.

Lemma byteOf_isByte (c : ascii) : isByte (Node.byteOf c).
Proof.
  unfold isByte, Node.byteOf. pose proof (N_ascii_bounded c). lia.
Qed.

Lemma charOf_byteOf (c : ascii) : Node.charOf (Node.byteOf c) = c.
Proof.
  unfold Node.charOf. pose proof (byteOf_isByte c) as Hc. unfold isByte in Hc.
  rewrite Z.mod_small by lia. unfold Node.byteOf. rewrite N2Z.id.
  apply ascii_N_embedding.
Qed.

Lemma byteOf_charOf (b : Z) : isByte b -> Node.byteOf (Node.charOf b) = b.
Proof.
  unfold isByte. intros Hb. unfold Node.charOf, Node.byteOf.
  rewrite Z.mod_small by lia. rewrite N_ascii_embedding by lia. lia.
Qed.

Lemma allBytes_weaken (p q : Z -> bool) (s : string) :
  (forall b, p b = true -> q b = true) -> allBytes p s = true -> allBytes q s = true.
Proof.
  intros Hpq. unfold allBytes. rewrite !forallb_forall. auto.
Qed.

Lemma base64url_unreserved (b : Z) : isBase64url b = true -> Node.isUnreserved b = true.
Proof. unfold isBase64url, Node.isUnreserved. lia. Qed.

Lemma hexDigit_unreserved (b : Z) : isHexDigit b = true -> Node.isUnreserved b = true.
Proof. unfold isHexDigit, Node.isUnreserved. lia. Qed.

Lemma formEncode_cons (c : ascii) (s : string) :
  Node.formEncode (String c s) = Node.formEncodeByte (Node.byteOf c) +:+ Node.formEncode s.
Proof. reflexivity. Qed.

Lemma formEncode_unreserved (s : string) :
  allBytes Node.isUnreserved s = true -> Node.formEncode s = s.
Proof.
  induction s as [|c s IH]; [reflexivity |].
  rewrite allBytes_cons, formEncode_cons. intros [Hc Hs]%andb_prop.
  unfold Node.formEncodeByte. rewrite Hc, charOf_byteOf, (IH Hs). reflexivity.
Qed.

Lemma allBytes_app (p : Z -> bool) (a b : string) :
  allBytes p (a +:+ b) = allBytes p a && allBytes p b.
Proof.
  induction a as [|c a IH]; [reflexivity |].
  change (String c a +:+ b) with (String c (a +:+ b)).
  rewrite !allBytes_cons, IH. now rewrite andb_assoc.
Qed.

Lemma formEncodeByte_safe (b : Z) :
  isByte b -> allBytes isFormSafe (Node.formEncodeByte b) = true.
Proof.
  intros Hb. unfold Node.formEncodeByte.
  destruct (Node.isUnreserved b) eqn:Hu.
  - rewrite allBytes_cons, (byteOf_charOf b Hb). unfold isFormSafe. rewrite Hu. reflexivity.
  - destruct (b =? 32); [reflexivity |].
    unfold isByte in Hb. rewrite !allBytes_cons. unfold isFormSafe at 2 3.
    rewrite !hexDigit_upper by (Z.div_mod_to_equations; lia). reflexivity.
Qed.

Lemma formEncode_safe (s : string) : allBytes isFormSafe (Node.formEncode s) = true.
Proof.
  induction s as [|c s IH]; [reflexivity |].
  rewrite formEncode_cons, allBytes_app, IH, formEncodeByte_safe by apply byteOf_isByte.
  reflexivity.
Qed.

Lemma round_length (state : list Z) (kw : Z * Z) :
  length (Node.round state kw) = length state.
Proof.
  unfold Node.round.
  repeat (destruct state as [|? state]; try reflexivity).
Qed.

Lemma rounds_length (kws : list (Z * Z)) (state : list Z) :
  length (fold_left Node.round kws state) = length state.
Proof.
  revert state. induction kws as [|kw kws IH]; intros state; [reflexivity |].
  simpl. now rewrite IH, round_length.
Qed.

Lemma compress_length (hash : list Z) (block : Node.Buffer) :
  length (Node.compress hash block) = length hash.
Proof.
  unfold Node.compress. rewrite length_map, length_combine, rounds_length. lia.
Qed.

Lemma bigEndian_length (width : nat) (x : Z) : length (Node.bigEndian width x) = width.
Proof. induction width as [|k IH]; [reflexivity |]. simpl. now rewrite IH. Qed.

Lemma bigEndian_bytes (width : nat) (x : Z) : Forall isByte (Node.bigEndian width x).
Proof.
  induction width as [|k IH]; [constructor |].
  simpl. constructor; [| exact IH]. unfold isByte. apply Z.mod_pos_bound. lia.
Qed.

Lemma sha256_length (msg : Node.Buffer) : length (Node.sha256 msg) = 32%nat.
Proof.
  unfold Node.sha256.
  assert (Hhash : forall blocks hash,
            length hash = 8%nat -> length (fold_left Node.compress blocks hash) = 8%nat).
  { induction blocks as [|block blocks IH]; intros hash Hlen; [exact Hlen |].
    simpl. apply IH. now rewrite compress_length. }
  specialize (Hhash (Node.groupsOf (length (Node.padMessage msg)) 64 (Node.padMessage msg))
                Node.initialHash eq_refl).
  destruct (fold_left Node.compress _ Node.initialHash)
    as [|h0 [|h1 [|h2 [|h3 [|h4 [|h5 [|h6 [|h7 [|h8 rest]]]]]]]]]; try discriminate.
  reflexivity.
Qed.

Lemma sha256_bytes (msg : Node.Buffer) : Forall isByte (Node.sha256 msg).
Proof.
  unfold Node.sha256. apply Forall_flat_map, Forall_forall.
  intros word _. apply bigEndian_bytes.
Qed.

Lemma formEncode_confined (s : string) :
  Forall (fun b => isFormSafe b = true /\ b <> 38 /\ b <> 61 /\ b <> 35 /\ b <> 63)
         (Node.bytesOf (Node.formEncode s)).
Proof.
  pose proof (formEncode_safe s) as Hsafe. unfold allBytes in Hsafe.
  rewrite forallb_forall in Hsafe. apply List.Forall_forall. intros b Hb.
  specialize (Hsafe b Hb). split; [exact Hsafe |].
  unfold isFormSafe, Node.isUnreserved in Hsafe. lia.
Qed.

(** Known answers: FIPS 180-4 for "abc", RFC 7636 appendix B for the
    challenge. *)
Example sha256_abc :
  Node.toHex (Node.sha256 (Node.bytesOf "abc")) =
  "ba7816bf8f01cfea414140de5dae2223b00361a396177a9cb410ff61f20015ad".
Proof. vm_compute. reflexivity. Qed.

Example challenge_rfc7636 :
  generateCodeChallenge "dBjftJeZ4CVP-mB92K27uhbUJU1p1r_wW1gFWFOEjXk" =
  "E9Melhoa2OwvFrEMTJguCHaoeK1t8URWbuGJSstw-cM".
Proof. vm_compute. reflexivity. Qed.

(** *** The lifecycle, continued *)

Lemma upcoming_length (w : World) (offset n : nat) : length (upcoming w offset n) = n.
Proof. unfold upcoming. now rewrite length_map, length_seq. Qed.

Lemma upcoming_bytes (w : World) (offset n : nat) : Forall isByte (upcoming w offset n).
Proof.
  unfold upcoming. apply Forall_map, Forall_forall. intros i _.
  unfold isByte. apply Z.mod_pos_bound. lia.
Qed.

Section FurtherProperties.
Variable env : ProcessEnv.

Lemma generateAuthUrl_unfold (state codeVerifier : string) :
  generateAuthUrl env state codeVerifier =
    "https://www.canva.com/api/oauth/authorize?client_id="
    +:+ Node.formEncode (CANVA_CLIENT_ID env)
    +:+ "&response_type=code&redirect_uri="
    +:+ Node.formEncode (CANVA_REDIRECT_URI env)
    +:+ "&state=" +:+ Node.formEncode state
    +:+ "&scope=asset%3Aread+asset%3Awrite+comment%3Aread+comment%3Awrite+design%3Acontent%3Aread+design%3Acontent%3Awrite+design%3Ameta%3Aread+folder%3Aread+folder%3Awrite+profile%3Aread&code_challenge="
    +:+ Node.formEncode (generateCodeChallenge codeVerifier)
    +:+ "&code_challenge_method=S256".
Proof.
  unfold generateAuthUrl, Node.paramsToString.
  cbn [map Node.joinWith fst snd].
  change (Node.formEncode "client_id") with "client_id".
  change (Node.formEncode "response_type") with "response_type".
  change (Node.formEncode "code") with "code".
  change (Node.formEncode "redirect_uri") with "redirect_uri".
  change (Node.formEncode "state") with "state".
  change (Node.formEncode "scope") with "scope".
  change (Node.formEncode "code_challenge") with "code_challenge".
  change (Node.formEncode "code_challenge_method") with "code_challenge_method".
  change (Node.formEncode "S256") with "S256".
  change (Node.formEncode (Node.joinWith " " scopes)) with
    "asset%3Aread+asset%3Awrite+comment%3Aread+comment%3Awrite+design%3Acontent%3Aread+design%3Acontent%3Awrite+design%3Ameta%3Aread+folder%3Aread+folder%3Awrite+profile%3Aread".
  rewrite !append_assoc. reflexivity.
Qed.

Lemma callTool_gate (sid : string) (request : CallToolRequest) (w : World) :
  authSessions w !! sid = None ->
  callTool env sid request w =
  (Ok (TextContent
         (authenticationPrompt
            (generateAuthUrl env (Node.toHex (upcoming w 0 16))
               (Node.toBase64url (upcoming w 16 32))))),
   withPendingAuthStates
     (insert (Node.toHex (upcoming w 0 16))
        {| sessionId := sid; createdAt := now w;
           codeVerifier := Node.toBase64url (upcoming w 16 32) |})
     (afterDraw 32 (afterDraw 16 w))).
Proof.
  intros Hnone. unfold callTool, generateCodeVerifier. run. rewrite Hnone.
  unfold randomBytes. cbn beta iota delta [drawn entropy now fst snd].
  rewrite upcoming_now. reflexivity.
Qed.

Lemma callTool_authenticated (sid : string) (s : Session) (request : CallToolRequest) (w : World) :
  authSessions w !! sid = Some s ->
  callTool env sid request w = toolSwitch env sid request w.
Proof. intros Hs. unfold callTool. run. now rewrite Hs. Qed.

(** C1: for a session without a record, the handler answers any
    request (accepted, refused by the parser or naming no tool) with
    the authentication prompt, whose text ends in the authorization URL
    [https://www.canva.com/api/oauth/authorize?...]: the URL carries
    the configured client id and redirect URI form-encoded and, as they
    are, the state token and the S256 challenge of the code verifier.
    The handler hands nothing to [fetch], leaves the token store and
    the replies of both services untouched, and files the pending
    authorization under the state token. The token is new in that it
    is the 32 hexadecimal digits of the next 16 bytes of the random
    source, which the call uses up together with the 32 bytes of the
    verifier; the code does not compare it with the tokens already
    filed, and where it is not among them the registry grows by this
    one entry. *)
Theorem callTool_unauthenticated (sid : string) (request : CallToolRequest) (w : World) :
  authSessions w !! sid = None ->
  let state := Node.toHex (upcoming w 0 16) in
  let codeVerifier := Node.toBase64url (upcoming w 16 32) in
  let w' := (callTool env sid request w).2 in
  (callTool env sid request w).1 =
    Ok (TextContent
          ("Please authenticate with Canva to use this feature. Visit: "
           +:+ "https://www.canva.com/api/oauth/authorize?client_id="
           +:+ Node.formEncode (CANVA_CLIENT_ID env)
           +:+ "&response_type=code&redirect_uri="
           +:+ Node.formEncode (CANVA_REDIRECT_URI env)
           +:+ "&state=" +:+ state
           +:+ "&scope=asset%3Aread+asset%3Awrite+comment%3Aread+comment%3Awrite+design%3Acontent%3Aread+design%3Acontent%3Awrite+design%3Ameta%3Aread+folder%3Aread+folder%3Awrite+profile%3Aread&code_challenge="
           +:+ generateCodeChallenge codeVerifier
           +:+ "&code_challenge_method=S256"))
  /\ String.length state = 32%nat
  /\ allBytes isHexDigit state = true
  /\ authSessions w' = authSessions w
  /\ sent w' = sent w
  /\ tokenEndpoint w' = tokenEndpoint w
  /\ canvaApi w' = canvaApi w
  /\ drawn w' = (drawn w + 48)%nat
  /\ pendingAuthStates w' =
       <[state := {| sessionId := sid; createdAt := now w; codeVerifier := codeVerifier |}]>
         (pendingAuthStates w)
  /\ (pendingAuthStates w !! state = None ->
      size (pendingAuthStates w') = S (size (pendingAuthStates w))).
Proof.
  intros Hnone state codeVerifier w'. subst state codeVerifier w'.
  rewrite (callTool_gate sid request w Hnone). cbn [fst snd].
  split.
  { unfold authenticationPrompt. rewrite generateAuthUrl_unfold.
    rewrite (formEncode_unreserved (Node.toHex _)).
    2:{ apply (allBytes_weaken isHexDigit); [apply hexDigit_unreserved |].
        apply toHex_digits, upcoming_bytes. }
    rewrite (formEncode_unreserved (generateCodeChallenge _)).
    2:{ apply (allBytes_weaken isBase64url); [apply base64url_unreserved |].
        unfold generateCodeChallenge. apply toBase64url_alphabet, sha256_bytes. }
    reflexivity. }
  split; [now rewrite toHex_length, upcoming_length |].
  split; [apply toHex_digits, upcoming_bytes |].
  do 4 (split; [reflexivity |]).
  split; [simpl; lia |].
  split; [reflexivity |].
  intros Hunused. simpl. now apply map_size_insert_None.
Qed.

(** X1: whatever bytes the random source hands out, the code verifier
    is a string of 43 characters of the base64url alphabet, and making
    it draws 32 bytes and changes nothing else. *)
Theorem generateCodeVerifier_format (w : World) :
  exists verifier,
    generateCodeVerifier w = (Ok verifier, afterDraw 32 w)
    /\ String.length verifier = 43%nat
    /\ allBytes isBase64url verifier = true.
Proof.
  exists (Node.toBase64url (upcoming w 0 32)). split; [| split].
  - unfold generateCodeVerifier, randomBytes. run. now rewrite upcoming_now.
  - now rewrite toBase64url_length, upcoming_length.
  - apply toBase64url_alphabet, upcoming_bytes.
Qed.

(** X2: for every verifier the code challenge is a string of 43
    characters of the base64url alphabet. *)
Theorem generateCodeChallenge_format (verifier : string) :
  String.length (generateCodeChallenge verifier) = 43%nat
  /\ allBytes isBase64url (generateCodeChallenge verifier) = true.
Proof.
  unfold generateCodeChallenge. split.
  - now rewrite toBase64url_length, sha256_length.
  - apply toBase64url_alphabet, sha256_bytes.
Qed.

(** X3: the prompt of an unauthenticated call and the registry agree:
    the URL carries, unescaped, a state token of 32 lower-case
    hexadecimal digits and the S256 challenge of a verifier, and the
    pending authorization filed under that very token holds the
    session, the clock reading and that verifier. *)
Theorem authorization_url_names_pending_entry
    (sid : string) (request : CallToolRequest) (w : World) :
  authSessions w !! sid = None ->
  exists token verifier,
    String.length token = 32%nat
    /\ allBytes isHexDigit token = true
    /\ pendingAuthStates (callTool env sid request w).2 !! token =
         Some {| sessionId := sid; createdAt := now w; codeVerifier := verifier |}
    /\ (callTool env sid request w).1 =
         Ok (TextContent
               ("Please authenticate with Canva to use this feature. Visit: "
                +:+ "https://www.canva.com/api/oauth/authorize?client_id="
                +:+ Node.formEncode (CANVA_CLIENT_ID env)
                +:+ "&response_type=code&redirect_uri="
                +:+ Node.formEncode (CANVA_REDIRECT_URI env)
                +:+ "&state=" +:+ token
                +:+ "&scope=asset%3Aread+asset%3Awrite+comment%3Aread+comment%3Awrite+design%3Acontent%3Aread+design%3Acontent%3Awrite+design%3Ameta%3Aread+folder%3Aread+folder%3Awrite+profile%3Aread&code_challenge="
                +:+ generateCodeChallenge verifier
                +:+ "&code_challenge_method=S256")).
Proof.
  intros Hnone. rewrite (callTool_gate sid request w Hnone).
  exists (Node.toHex (upcoming w 0 16)), (Node.toBase64url (upcoming w 16 32)).
  split; [now rewrite toHex_length, upcoming_length |].
  split; [apply toHex_digits, upcoming_bytes |].
  split; [apply lookup_insert_eq |].
  cbn [fst]. unfold authenticationPrompt. rewrite generateAuthUrl_unfold.
  rewrite (formEncode_unreserved (Node.toHex _)).
  2:{ apply (allBytes_weaken isHexDigit); [apply hexDigit_unreserved |].
      apply toHex_digits, upcoming_bytes. }
  rewrite (formEncode_unreserved (generateCodeChallenge _)).
  2:{ apply (allBytes_weaken isBase64url); [apply base64url_unreserved |].
      unfold generateCodeChallenge. apply toBase64url_alphabet, sha256_bytes. }
  reflexivity.
Qed.


(** X4: the authorization URL is the fixed template filled with the
    form-encodings of the configured client id, the configured redirect
    URI, the state and the S256 challenge of the verifier, whatever
    these are; being form-encoded, none of the four fillings holds an
    ampersand, an equals sign, a hash or a question mark, so each stays
    inside its own parameter. *)
Theorem generateAuthUrl_parameters_confined (state codeVerifier : string) :
  generateAuthUrl env state codeVerifier =
    "https://www.canva.com/api/oauth/authorize?client_id="
    +:+ Node.formEncode (CANVA_CLIENT_ID env)
    +:+ "&response_type=code&redirect_uri="
    +:+ Node.formEncode (CANVA_REDIRECT_URI env)
    +:+ "&state=" +:+ Node.formEncode state
    +:+ "&scope=asset%3Aread+asset%3Awrite+comment%3Aread+comment%3Awrite+design%3Acontent%3Aread+design%3Acontent%3Awrite+design%3Ameta%3Aread+folder%3Aread+folder%3Awrite+profile%3Aread&code_challenge="
    +:+ Node.formEncode (generateCodeChallenge codeVerifier)
    +:+ "&code_challenge_method=S256"
  /\ Forall (fun value =>
               Forall (fun b => isFormSafe b = true /\ b <> 38 /\ b <> 61 /\ b <> 35 /\ b <> 63)
                      (Node.bytesOf value))
            [ Node.formEncode (CANVA_CLIENT_ID env);
              Node.formEncode (CANVA_REDIRECT_URI env);
              Node.formEncode state;
              Node.formEncode (generateCodeChallenge codeVerifier) ].
Proof.
  split; [apply generateAuthUrl_unfold |].
  repeat (constructor; [apply formEncode_confined |]). constructor.
Qed.

(** X5: the sign-in from end to end. After the prompt for a session
    without a record, a callback presenting the state token of the
    prompt with a code, once the exchange succeeds, has sent the
    verifier filed with the prompt, stores the tokens under that
    session and removes the entry; from then on the calls of the
    session go to the tool switch. *)
Theorem sign_in_flow
    (sid : string) (request : CallToolRequest) (query : CallbackQuery) (code : string)
    (tokenData : TokenData) (w w1 w2 : World) :
  authSessions w !! sid = None ->
  pendingAuthStates w1 = pendingAuthStates (callTool env sid request w).2 ->
  presents query code (Node.toHex (upcoming w 0 16)) ->
  exchangeCodeForToken env code (Node.toBase64url (upcoming w 16 32)) w1 = (Ok tokenData, w2) ->
  let w3 := (handleAuthCallback env query w1).2 in
  (handleAuthCallback env query w1).1 = Ok {| statusCode := 200; page := ConnectedPage |}
  /\ sent w3 = sent w1 ++ [exchangeRequest env code (Node.toBase64url (upcoming w 16 32))]
  /\ authSessions w3 !! sid =
       Some {| accessToken := access_token tokenData;
               refreshToken := refresh_token tokenData;
               expiresAt := now w2 + expires_in tokenData * 1000 |}
  /\ pendingAuthStates w3 !! Node.toHex (upcoming w 0 16) = None
  /\ forall request2 w4,
       authSessions w4 = authSessions w3 ->
       callTool env sid request2 w4 = toolSwitch env sid request2 w4.
Proof.
  intros Hnone Hpending Hquery Hexchange w3. subst w3.
  assert (Hfound : pendingAuthStates w1 !! Node.toHex (upcoming w 0 16) =
                   Some {| sessionId := sid; createdAt := now w;
                           codeVerifier := Node.toBase64url (upcoming w 16 32) |}).
  { rewrite Hpending, (callTool_gate sid request w Hnone). apply lookup_insert_eq. }
  rewrite (handleAuthCallback_found env query code _ _ w1 Hquery Hfound).
  cbn [codeVerifier sessionId]. rewrite Hexchange.
  pose proof (exchangeCodeForToken_world env code (Node.toBase64url (upcoming w 16 32)) w1)
    as Hworld.
  rewrite Hexchange in Hworld. simpl in Hworld. subst w2. simpl.
  split; [reflexivity |]. split; [reflexivity |].
  split; [apply lookup_insert_eq |]. split; [apply lookup_delete_eq |].
  intros request2 w4 Hsame.
  eapply callTool_authenticated. rewrite Hsame. apply lookup_insert_eq.
Qed.

(** X6: a callback that carries an error, lacks a code or a state
    (an empty one counts as lacking), or names a state that is not in
    the registry is answered 400 and leaves the world exactly as it
    was: no clean-up of old entries, no request. *)
Theorem refused_callback_touches_nothing (query : CallbackQuery) (w : World) :
  (truthyString (error query) <> None
   \/ truthyString (code query) = None
   \/ truthyString (state query) = None
   \/ exists token, truthyString (state query) = Some token
                    /\ pendingAuthStates w !! token = None) ->
  exists answer,
    handleAuthCallback env query w = (Ok {| statusCode := 400; page := answer |}, w).
Proof.
  intros Hrefused. unfold handleAuthCallback.
  destruct (truthyString (error query)) as [message|] eqn:Herror; [eauto |].
  destruct (truthyString (code query)) as [code|] eqn:Hcode;
    destruct (truthyString (state query)) as [token|] eqn:Hstate;
    try (eexists; reflexivity).
  destruct Hrefused as [Hbad | [Hbad | [Hbad | (token' & [= <-] & Hmiss)]]];
    try congruence.
  run. rewrite Hmiss. eexists. reflexivity.
Qed.

Lemma handleAuthCallback_cases (query : CallbackQuery) (w : World) :
  (exists answer,
     handleAuthCallback env query w = (Ok {| statusCode := 400; page := answer |}, w))
  \/ (exists code token pendingAuth,
        presents query code token /\ pendingAuthStates w !! token = Some pendingAuth).
Proof.
  unfold handleAuthCallback, presents.
  destruct (truthyString (error query)) as [message|] eqn:Herror; [left; eauto |].
  destruct (truthyString (code query)) as [code|] eqn:Hcode;
    destruct (truthyString (state query)) as [token|] eqn:Hstate;
    try (left; eexists; reflexivity).
  destruct (pendingAuthStates w !! token) as [pendingAuth|] eqn:Hfound.
  - right. exists code, token, pendingAuth. auto.
  - left. run. rewrite Hfound. eexists. reflexivity.
Qed.

(** X7: the callback never throws: it always answers, with 200, 400
    or 500, and hands [fetch] at most one request, a POST to the token
    endpoint. *)
Theorem handleAuthCallback_always_answers (query : CallbackQuery) (w : World) :
  exists reply,
    (handleAuthCallback env query w).1 = Ok reply
    /\ (statusCode reply = 200 \/ statusCode reply = 400 \/ statusCode reply = 500)
    /\ (sent (handleAuthCallback env query w).2 = sent w
        \/ exists request,
             sent (handleAuthCallback env query w).2 = sent w ++ [request]
             /\ url request = tokenUrl /\ method request = "POST").
Proof.
  destruct (handleAuthCallback_cases query w)
    as [(answer & ->) | (code & token & pendingAuth & Hquery & Hfound)].
  - eexists. split; [reflexivity |]. split; [right; left; reflexivity | left; reflexivity].
  - pose proof (handleAuthCallback_exchanges_whenever_found env query code token pendingAuth w
                  Hquery Hfound) as Hsent.
    rewrite (handleAuthCallback_found env query code token pendingAuth w Hquery Hfound) in *.
    destruct (exchangeCodeForToken env code (codeVerifier pendingAuth) w)
      as [[tokenData|message] w1]; cbn [fst snd] in *;
      (eexists; split; [reflexivity |]; split; [simpl; auto |]);
      right; eexists; (split; [exact Hsent | split; reflexivity]).
Qed.

(** X8: once a callback has found its entry, whatever the exchange
    gives, the registry holds no entry older than ten minutes (by the
    clock at the lookup) and none that was not there; every other entry
    of at most ten minutes is kept as it was. *)
Theorem found_callback_sweeps_registry
    (query : CallbackQuery) (code token : string) (pendingAuth : PendingAuth) (w : World) :
  presents query code token ->
  pendingAuthStates w !! token = Some pendingAuth ->
  let w' := (handleAuthCallback env query w).2 in
  (forall key entry,
     pendingAuthStates w' !! key = Some entry ->
     pendingAuthStates w !! key = Some entry /\ now w - createdAt entry <= pendingTtlMs)
  /\ (forall key entry,
        key <> token ->
        pendingAuthStates w !! key = Some entry ->
        now w - createdAt entry <= pendingTtlMs ->
        pendingAuthStates w' !! key = Some entry).
Proof.
  intros Hquery Hfound w'. subst w'.
  rewrite (handleAuthCallback_found env query code token pendingAuth w Hquery Hfound).
  pose proof (exchangeCodeForToken_world env code (codeVerifier pendingAuth) w) as Hworld.
  assert (Hswept : forall key entry,
            sweep (now w) (pendingAuthStates w) !! key = Some entry ->
            pendingAuthStates w !! key = Some entry /\ now w - createdAt entry <= pendingTtlMs).
  { intros key entry Hin. unfold sweep in Hin.
    apply map_lookup_filter_Some in Hin as [Hin Hyoung]. simpl in Hyoung. split; [exact Hin | lia]. }
  destruct (exchangeCodeForToken env code (codeVerifier pendingAuth) w)
    as [[tokenData|message] w1]; simpl in Hworld; subst w1; simpl; split.
  - intros key entry Hin. apply lookup_delete_Some in Hin as [_ Hin]. now apply Hswept.
  - intros key entry Hkey Hin Hyoung. rewrite lookup_delete_ne by congruence.
    now apply sweep_keeps.
  - exact Hswept.
  - intros key entry _ Hin Hyoung. now apply sweep_keeps.
Qed.

(** X9: a callback that finds its entry leaves the record of every
    session other than the one named in the entry as it was. *)
Theorem callback_touches_one_session
    (query : CallbackQuery) (code token : string) (pendingAuth : PendingAuth)
    (other : string) (w : World) :
  presents query code token ->
  pendingAuthStates w !! token = Some pendingAuth ->
  other <> sessionId pendingAuth ->
  authSessions (handleAuthCallback env query w).2 !! other = authSessions w !! other.
Proof.
  intros Hquery Hfound Hother.
  rewrite (handleAuthCallback_found env query code token pendingAuth w Hquery Hfound).
  pose proof (exchangeCodeForToken_world env code (codeVerifier pendingAuth) w) as Hworld.
  destruct (exchangeCodeForToken env code (codeVerifier pendingAuth) w)
    as [[tokenData|message] w1]; simpl in Hworld; subst w1; simpl.
  - now apply lookup_insert_ne.
  - reflexivity.
Qed.

Lemma getValidAccessToken_frame (sid other : string) (w : World) :
  other <> sid ->
  authSessions (getValidAccessToken env sid w).2 !! other = authSessions w !! other.
Proof.
  intros Hother. destruct (authSessions w !! sid) as [s|] eqn:Hs.
  - destruct (Z.le_gt_cases (expiresAt s - now w) bufferMs) as [Hnear|Hfar].
    + rewrite (getValidAccessToken_refreshes env sid s w Hs Hnear).
      pose proof (refreshAccessToken_world env (refreshToken s) w) as Hworld.
      destruct (refreshAccessToken env (refreshToken s) w) as [[tokenData|message] w1];
        simpl in Hworld; subst w1; simpl; [now apply lookup_insert_ne | reflexivity].
    + rewrite (getValidAccessToken_passes env sid s w Hs) by lia. reflexivity.
  - unfold getValidAccessToken. run. rewrite Hs. reflexivity.
Qed.

Lemma getValidAccessToken_pending (sid : string) (w : World) :
  pendingAuthStates (getValidAccessToken env sid w).2 = pendingAuthStates w.
Proof.
  destruct (authSessions w !! sid) as [s|] eqn:Hs.
  - destruct (Z.le_gt_cases (expiresAt s - now w) bufferMs) as [Hnear|Hfar].
    + rewrite (getValidAccessToken_refreshes env sid s w Hs Hnear).
      pose proof (refreshAccessToken_world env (refreshToken s) w) as Hworld.
      destruct (refreshAccessToken env (refreshToken s) w) as [[tokenData|message] w1];
        simpl in Hworld; subst w1; reflexivity.
    + rewrite (getValidAccessToken_passes env sid s w Hs) by lia. reflexivity.
  - unfold getValidAccessToken. run. rewrite Hs. reflexivity.
Qed.

(** What [canvaApiRequest] leaves of the two maps is what the gate left. *)
Lemma canvaApiRequest_maps (sid endpoint method : string) (body : option Json) (w : World) :
  authSessions (canvaApiRequest env sid endpoint method body w).2 =
    authSessions (getValidAccessToken env sid w).2
  /\ pendingAuthStates (canvaApiRequest env sid endpoint method body w).2 =
       pendingAuthStates (getValidAccessToken env sid w).2.
Proof.
  destruct (getValidAccessToken env sid w) as [[token|message] w1] eqn:Hgate.
  - rewrite (canvaApiRequest_world env sid endpoint method token body w w1 Hgate).
    split; reflexivity.
  - rewrite (canvaApiRequest_gate_fails env sid endpoint method message body w w1 Hgate).
    split; reflexivity.
Qed.

Lemma toolSwitch_accepted_maps (sid : string) (call : ToolCall) (w : World) :
  authSessions (toolSwitch env sid (Accepted call) w).2 =
    authSessions (getValidAccessToken env sid w).2
  /\ pendingAuthStates (toolSwitch env sid (Accepted call) w).2 = pendingAuthStates w.
Proof.
  unfold toolSwitch. destruct (forwarded call) as [[endpoint method] body]. run.
  pose proof (canvaApiRequest_maps sid endpoint method body w) as [Hsessions Hpending].
  rewrite getValidAccessToken_pending in Hpending.
  destruct (canvaApiRequest env sid endpoint method body w) as [[data|message] w1];
    simpl in *; auto.
Qed.

(** X14: a tool call made for one session never changes the record of
    another, and for a session with a record it leaves the registry of
    pending authorizations alone. *)
Theorem callTool_touches_one_session
    (sid other : string) (request : CallToolRequest) (w : World) :
  other <> sid ->
  authSessions (callTool env sid request w).2 !! other = authSessions w !! other
  /\ (is_Some (authSessions w !! sid) ->
      pendingAuthStates (callTool env sid request w).2 = pendingAuthStates w).
Proof.
  intros Hother. destruct (authSessions w !! sid) as [s|] eqn:Hs.
  - rewrite (callTool_authenticated sid s request w Hs).
    destruct request as [call | name detail | name];
      [| split; [reflexivity | now intros _] ..].
    destruct (toolSwitch_accepted_maps sid call w) as [Hsessions Hpending].
    rewrite Hsessions. split; [now apply getValidAccessToken_frame | now intros _].
  - rewrite (callTool_gate sid request w Hs). split; [reflexivity |].
    intros [s Hsome]. discriminate.
Qed.

(** X11: a refresh made on the way to a forwarded request is kept
    whatever the API then answers: after the call the store holds the
    refreshed record, be the request fulfilled, refused or failed. *)
Theorem refresh_survives_api_failure
    (sid : string) (s : Session) (call : ToolCall) (tokenData : TokenData) (w w1 : World) :
  authSessions w !! sid = Some s ->
  expiresAt s - now w <= bufferMs ->
  refreshAccessToken env (refreshToken s) w = (Ok tokenData, w1) ->
  authSessions (callTool env sid (Accepted call) w).2 =
    <[sid := {| accessToken := access_token tokenData;
                refreshToken := refreshToken s;
                expiresAt := now w1 + expires_in tokenData * 1000 |}]> (authSessions w).
Proof.
  intros Hs Hnear Hrefresh.
  rewrite (callTool_authenticated sid s _ w Hs).
  destruct (toolSwitch_accepted_maps sid call w) as [-> _].
  rewrite (getValidAccessToken_refreshes env sid s w Hs Hnear), Hrefresh.
  pose proof (refreshAccessToken_world env (refreshToken s) w) as Hworld.
  rewrite Hrefresh in Hworld. simpl in Hworld. subst w1. reflexivity.
Qed.

Lemma toolSwitch_accepted_sent (sid : string) (call : ToolCall) (w : World) :
  sent (toolSwitch env sid (Accepted call) w).2 =
  match getValidAccessToken env sid w with
  | (Ok token, w1) =>
      sent w1 ++ [apiRequest token (forwarded call).1.1 (forwarded call).1.2 (forwarded call).2]
  | (Throw _, w1) => sent w1
  end.
Proof.
  unfold toolSwitch. destruct (forwarded call) as [[endpoint method] body]. run. simpl.
  destruct (getValidAccessToken env sid w) as [[token|message] w1] eqn:Hgate.
  - pose proof (canvaApiRequest_world env sid endpoint method token body w w1 Hgate) as Hworld.
    destruct (canvaApiRequest env sid endpoint method body w) as [[data|message] w2];
      simpl in *; now subst w2.
  - now rewrite (canvaApiRequest_gate_fails env sid endpoint method message body w w1 Hgate).
Qed.

(** X12: an accepted tool call hands [fetch] one request to the API
    when more than five minutes are left, and otherwise a refresh
    request followed by at most one request to the API; nothing is
    ever retried. *)
Theorem tool_call_request_budget (sid : string) (s : Session) (call : ToolCall) (w : World) :
  authSessions w !! sid = Some s ->
  let after := sent (callTool env sid (Accepted call) w).2 in
  let forward token :=
    apiRequest token (forwarded call).1.1 (forwarded call).1.2 (forwarded call).2 in
  (bufferMs < expiresAt s - now w -> after = sent w ++ [forward (accessToken s)])
  /\ (expiresAt s - now w <= bufferMs ->
      after = sent w ++ [refreshRequest env (refreshToken s)]
      \/ exists token,
           after = sent w ++ [refreshRequest env (refreshToken s); forward token]).
Proof.
  intros Hs after forward. subst after forward.
  rewrite (callTool_authenticated sid s _ w Hs), toolSwitch_accepted_sent. split.
  - intros Hfar. now rewrite (getValidAccessToken_passes env sid s w Hs Hfar).
  - intros Hnear. rewrite (getValidAccessToken_refreshes env sid s w Hs Hnear).
    pose proof (refreshAccessToken_world env (refreshToken s) w) as Hworld.
    destruct (refreshAccessToken env (refreshToken s) w) as [[tokenData|message] w1];
      simpl in Hworld; subst w1; simpl.
    + right. exists (access_token tokenData). now rewrite <- app_assoc.
    + now left.
Qed.

(** X10: right after a successful refresh the next look-up returns the
    new token without any request if the grant runs for more than five
    minutes; a grant of five minutes or less is refreshed again at
    once. *)
Theorem refreshed_token_is_reused
    (sid : string) (s : Session) (tokenData : TokenData) (w w1 : World) :
  authSessions w !! sid = Some s ->
  expiresAt s - now w <= bufferMs ->
  refreshAccessToken env (refreshToken s) w = (Ok tokenData, w1) ->
  let w' := (getValidAccessToken env sid w).2 in
  (bufferMs < expires_in tokenData * 1000 ->
     getValidAccessToken env sid w' = (Ok (access_token tokenData), w'))
  /\ (expires_in tokenData * 1000 <= bufferMs ->
      sent (getValidAccessToken env sid w').2 =
      sent w' ++ [refreshRequest env (refreshToken s)]).
Proof.
  intros Hs Hnear Hrefresh w'. subst w'.
  rewrite (getValidAccessToken_refreshes env sid s w Hs Hnear), Hrefresh.
  pose proof (refreshAccessToken_world env (refreshToken s) w) as Hworld.
  rewrite Hrefresh in Hworld. simpl in Hworld. subst w1. cbn [snd].
  set (s' := {| accessToken := access_token tokenData; refreshToken := refreshToken s;
                expiresAt := _ |}).
  set (w' := withAuthSessions _ _).
  assert (Hs' : authSessions w' !! sid = Some s') by apply lookup_insert_eq.
  assert (Hleft : expiresAt s' - now w' = expires_in tokenData * 1000) by (simpl; lia).
  split.
  - intros Hlong. apply (getValidAccessToken_passes env sid s' w' Hs'). lia.
  - intros Hshort.
    rewrite (getValidAccessToken_refreshes env sid s' w' Hs') by lia.
    pose proof (refreshAccessToken_world env (refreshToken s') w') as Hworld'.
    destruct (refreshAccessToken env (refreshToken s') w') as [[tokenData'|message] w2];
      simpl in Hworld'; subst w2; reflexivity.
Qed.

End FurtherProperties.

(** *** Widget assets, resources and the tool list *)

Lemma lexLeb_trans (xs ys zs : list Z) :
  lexLeb xs ys = true -> lexLeb ys zs = true -> lexLeb xs zs = true.
Proof.
  revert ys zs.
  induction xs as [|x xs IH]; intros [|y ys] [|z zs]; simpl; try congruence.
  destruct (Z.ltb_spec x y), (Z.eqb_spec x y), (Z.ltb_spec y z), (Z.eqb_spec y z),
    (Z.ltb_spec x z), (Z.eqb_spec x z); simpl; try congruence; try lia.
  apply IH.
Qed.

Lemma lexLeb_total (xs ys : list Z) : lexLeb xs ys = true \/ lexLeb ys xs = true.
Proof.
  revert ys. induction xs as [|x xs IH]; intros [|y ys]; simpl; auto.
  destruct (Z.ltb_spec x y), (Z.eqb_spec x y), (Z.ltb_spec y x), (Z.eqb_spec y x);
    simpl; auto; try lia.
Qed.

Lemma leb_trans (a b c : string) :
  codeUnitLeb a b = true -> codeUnitLeb b c = true -> codeUnitLeb a c = true.
Proof. apply lexLeb_trans. Qed.

Lemma leb_total (a b : string) : codeUnitLeb a b = true \/ codeUnitLeb b a = true.
Proof. apply lexLeb_total. Qed.

Lemma leb_refl (a : string) : codeUnitLeb a a = true.
Proof. now destruct (leb_total a a). Qed.

(** The order is that of the UTF-16 code units, not that of the UTF-8
    bytes: U+FF5E (one code unit, FF5E) comes after U+1F600 (the
    surrogate pair D83D DE00), although its first byte EF is below F0. *)
Example code_unit_order :
  codeUnitLeb Cases.smileyBuild Cases.tildeBuild = true
  /\ codeUnitLeb Cases.tildeBuild Cases.smileyBuild = false
  /\ String.leb Cases.tildeBuild Cases.smileyBuild = true
  /\ sortStrings [Cases.tildeBuild; Cases.smileyBuild] = [Cases.smileyBuild; Cases.tildeBuild]
  /\ sortStrings [Cases.smileyBuild; Cases.tildeBuild] = [Cases.smileyBuild; Cases.tildeBuild].
Proof. vm_compute. repeat split. Qed.

Lemma insertSorted_In (x y : string) (l : list string) :
  In y (insertSorted x l) <-> y = x \/ In y l.
Proof.
  induction l as [|z l IH]; simpl; [intuition |].
  destruct (codeUnitLeb x z); simpl; [intuition |]. rewrite IH. intuition.
Qed.

Lemma sortStrings_In (x : string) (l : list string) : In x (sortStrings l) <-> In x l.
Proof.
  induction l as [|y l IH]; simpl; [tauto |].
  rewrite insertSorted_In, IH. intuition.
Qed.

Lemma insertSorted_sorted (x : string) (l : list string) :
  StronglySorted lebString l -> StronglySorted lebString (insertSorted x l).
Proof.
  induction 1 as [|y l Hsorted IH Hall]; simpl.
  - repeat constructor.
  - destruct (codeUnitLeb x y) eqn:Hxy.
    + constructor; [now constructor |]. constructor; [exact Hxy |].
      eapply Forall_impl; [exact Hall |]. intros z Hyz. exact (leb_trans x y z Hxy Hyz).
    + constructor; [exact IH |]. apply List.Forall_forall. intros z Hz.
      apply insertSorted_In in Hz as [-> | Hz].
      * destruct (leb_total x y) as [H|H]; [congruence | exact H].
      * rewrite List.Forall_forall in Hall. now apply Hall.
Qed.

Lemma sortStrings_sorted (l : list string) : StronglySorted lebString (sortStrings l).
Proof.
  induction l as [|x l IH]; simpl; [constructor | now apply insertSorted_sorted].
Qed.

Lemma last_of_sorted (l : list string) (m : string) :
  StronglySorted lebString l -> last l = Some m ->
  In m l /\ forall x, In x l -> codeUnitLeb x m = true.
Proof.
  induction 1 as [|y l Hsorted IH Hall]; [discriminate |].
  destruct l as [|z l].
  - intros [= <-]. split; [now left |]. intros x [<- | []]. apply leb_refl.
  - intros Hlast. change (last (z :: l) = Some m) in Hlast.
    destruct (IH Hlast) as [Hin Hmax]. split; [now right |].
    intros x [<- | Hx]; [| now apply Hmax].
    rewrite List.Forall_forall in Hall. now apply Hall.
Qed.

Lemma last_nonempty {A} (x : A) (l : list A) : exists m, last (x :: l) = Some m.
Proof.
  revert x. induction l as [|y l IH]; intros x; [now exists x |].
  destruct (IH y) as [m Hm]. exists m. exact Hm.
Qed.

Lemma candidate_nonempty (name file : string) :
  isCandidate name file = true -> truthyString (Some file) = Some file.
Proof.
  destruct file; [| reflexivity]. unfold isCandidate.
  destruct name; discriminate.
Qed.

(** X17: when [<name>.html] exists in the assets directory it alone
    decides: its contents are returned, a read error is passed on, and
    an empty file gives the "not found" error; the versioned files are
    not looked at. *)
Theorem readWidgetHtml_direct_file (fs : FileSystem) (dir name : string) :
  existsSync fs dir = true ->
  existsSync fs (pathJoin [dir; name +:+ ".html"]) = true ->
  readWidgetHtml fs dir name =
  match readFileSync fs (pathJoin [dir; name +:+ ".html"]) with
  | Ok EmptyString => Throw (widgetMissing dir name)
  | Ok contents => Ok contents
  | Throw message => Throw message
  end.
Proof.
  intros Hdir Hdirect. unfold readWidgetHtml. rewrite Hdir, Hdirect. simpl.
  destruct (readFileSync fs _) as [[|c contents]|message]; reflexivity.
Qed.

(** X18: without [<name>.html], if the directory lists files named
    [<name>-....html], the one read is such a file and no other such
    file comes after it in the order of [sort()], which compares the
    names by their UTF-16 code units. *)
Theorem readWidgetHtml_latest_version
    (fs : FileSystem) (dir name : string) (files : list string) :
  existsSync fs dir = true ->
  existsSync fs (pathJoin [dir; name +:+ ".html"]) = false ->
  readdirSync fs dir = Ok files ->
  (exists file, In file files /\ isCandidate name file = true) ->
  exists chosen,
    In chosen files
    /\ isCandidate name chosen = true
    /\ (forall file, In file files -> isCandidate name file = true ->
                     codeUnitLeb file chosen = true)
    /\ readWidgetHtml fs dir name =
       match readFileSync fs (pathJoin [dir; chosen]) with
       | Ok EmptyString => Throw (widgetMissing dir name)
       | Ok contents => Ok contents
       | Throw message => Throw message
       end.
Proof.
  intros Hdir Hdirect Hfiles (file & Hfile & Hcandidate).
  set (candidates := sortStrings (List.filter (isCandidate name) files)).
  assert (Hmember : forall x, In x candidates <-> In x files /\ isCandidate name x = true).
  { intros x. unfold candidates. now rewrite sortStrings_In, filter_In. }
  assert (Hsome : exists m, last candidates = Some m).
  { destruct candidates as [|x rest] eqn:Hc; [| apply last_nonempty].
    exfalso. apply (proj2 (Hmember file)); auto. }
  destruct Hsome as [chosen Hlast].
  destruct (last_of_sorted candidates chosen (sortStrings_sorted _) Hlast) as [Hin Hmax].
  apply Hmember in Hin as [Hin Hchosen].
  exists chosen. split; [exact Hin |]. split; [exact Hchosen |].
  split; [intros x Hx Hxc; apply Hmax, Hmember; auto |].
  unfold readWidgetHtml. rewrite Hdir, Hdirect, Hfiles. simpl.
  fold candidates. rewrite Hlast, (candidate_nonempty name chosen Hchosen).
  destruct (readFileSync fs _) as [[|c contents]|message]; reflexivity.
Qed.

Ltac pick_in := first [left; reflexivity | right; pick_in].

(** X15: the names in [tools] are pairwise distinct, every case of the
    switch is listed and every listed name has its case. *)
Theorem listed_tools_are_the_switch_cases :
  List.NoDup (map toolInfoName tools)
  /\ (forall call, In (caseLabel call) (map toolInfoName tools))
  /\ (forall name, In name (map toolInfoName tools) -> exists call, caseLabel call = name).
Proof.
  split; [| split].
  - apply NoDup_ListNoDup. apply (bool_decide_unpack _). vm_compute. exact I.
  - intros call. destruct call; cbn; pick_in.
  - intros name Hin. cbn in Hin.
    repeat (destruct Hin as [<- | Hin];
            [first
               [ now exists (UploadAssetFromUrl "" "")
               | now exists (SearchDesigns None None None None)
               | now exists (GetDesign "")
               | now exists (GetDesignPages "" None None)
               | now exists (GetDesignContent "")
               | now exists (CreateFolder "" None)
               | now exists (MoveItemToFolder "" "")
               | now exists (ListFolderItems "" None None)
               | now exists (CommentOnDesign "" "")
               | now exists (ListComments "" None None)
               | now exists (ListReplies "" "" None)
               | now exists (ReplyToComment "" "" "")
               | now exists (GenerateDesign "" None)
               | now exists (CreateDesignFromCandidate "" "")
               | now exists (StartEditingTransaction "")
               | now exists (PerformEditingOperations "" [])
               | now exists (CommitEditingTransaction "")
               | now exists (CancelEditingTransaction "")
               | now exists (GetDesignThumbnail "" 0)
               | now exists (GetAssets []) ] |]).
    destruct Hin.
Qed.

(** X16: a tool is annotated [readOnlyHint: true] exactly when its
    case forwards a GET, and [false] exactly when it forwards a POST;
    the GET requests carry the Authorization header only and no body. *)
Theorem readOnlyHint_means_GET (call : ToolCall) :
  exists info,
    toolNamed (caseLabel call) = Some info
    /\ (readOnlyHint info = true <-> (forwarded call).1.2 = "GET")
    /\ (readOnlyHint info = false <-> (forwarded call).1.2 = "POST")
    /\ (readOnlyHint info = true ->
        forall token,
          apiRequest token (forwarded call).1.1 (forwarded call).1.2 (forwarded call).2 =
          {| url := CANVA_API_BASE +:+ (forwarded call).1.1;
             method := "GET";
             headers := [("Authorization", "Bearer " +:+ token)];
             body := NoBody |}).
Proof.
  destruct call; (eexists; split; [reflexivity |]);
    (split; [split; [reflexivity || discriminate | reflexivity || discriminate] |]);
    (split; [split; [reflexivity || discriminate | reflexivity || discriminate] |]);
    first [discriminate | intros _ token; reflexivity].
Qed.

(** X19: every resource of the list can be read, giving the same URI
    and metadata and the markup of its widget; any other URI throws
    "Unknown resource: <uri>"; the list follows the order of the
    widgets. *)
Theorem listed_resources_can_be_read (searchHtml generatorHtml editorHtml : string) :
  (forall r,
     In r (resources (widgets searchHtml generatorHtml editorHtml)) ->
     exists widget,
       In widget (widgets searchHtml generatorHtml editorHtml)
       /\ resourceName r = Widget.title widget
       /\ readResource (widgets searchHtml generatorHtml editorHtml) (resourceUri r) =
          Ok [ {| contentsUri := resourceUri r;
                  contentsMimeType := "text/html+skybridge";
                  contentsText := Widget.html widget;
                  contentsMeta := resourceMeta r |} ])
  /\ (forall uri,
        (forall r, In r (resources (widgets searchHtml generatorHtml editorHtml)) ->
                   resourceUri r <> uri) ->
        readResource (widgets searchHtml generatorHtml editorHtml) uri =
        Throw ("Unknown resource: " +:+ uri))
  /\ map resourceUri (resources (widgets searchHtml generatorHtml editorHtml)) =
     map Widget.templateUri (widgets searchHtml generatorHtml editorHtml).
Proof.
  split; [| split; [| reflexivity]].
  - intros r Hin. cbn in Hin.
    destruct Hin as [<- | [<- | [<- | []]]]; eexists;
      [ split; [left; reflexivity | split; reflexivity]
      | split; [right; left; reflexivity | split; reflexivity]
      | split; [right; right; left; reflexivity | split; reflexivity] ].
  - intros uri Hnone. unfold readResource.
    change (widgetsByUri (widgets searchHtml generatorHtml editorHtml))
      with (map (fun widget => (Widget.templateUri widget, widget))
              (widgets searchHtml generatorHtml editorHtml)).
    cbn [map widgets mapGet Widget.templateUri].
    assert (Huris : forall k,
              In k (map resourceUri (resources (widgets searchHtml generatorHtml editorHtml))) ->
              k <> uri).
    { intros k Hk. apply in_map_iff in Hk as (r & <- & Hr). now apply Hnone. }
    destruct (String.eqb_spec "ui://widget/canva-search-designs.html" uri) as [Heq | _];
      [exfalso; exact (Huris _ (or_introl eq_refl) Heq) |].
    destruct (String.eqb_spec "ui://widget/canva-design-generator.html" uri) as [Heq | _];
      [exfalso; exact (Huris _ (or_intror (or_introl eq_refl)) Heq) |].
    destruct (String.eqb_spec "ui://widget/canva-design-editor.html" uri) as [Heq | _];
      [exfalso; exact (Huris _ (or_intror (or_intror (or_introl eq_refl))) Heq) |].
    reflexivity.
Qed.

(** ** The further properties at work *)

Section FurtherRuns.

Import Scenario.

(** C1 at work: an unknown session asks for an unknown tool. *)
Lemma callTool_unauthenticated_run :
  (authSessions idle !! "s1" = None
   /\ pendingAuthStates idle !! Node.toHex (upcoming idle 0 16) = None)
  /\ (callTool env "s1" (Unlisted "no-such-tool") idle).1 =
       Ok (TextContent
             "Please authenticate with Canva to use this feature. Visit: https://www.canva.com/api/oauth/authorize?client_id=OC-AZ123&response_type=code&redirect_uri=http%3A%2F%2F0.0.0.0%3A8001%2Fauth%2Fcallback&state=030a11181f262d343b424950575e656c&scope=asset%3Aread+asset%3Awrite+comment%3Aread+comment%3Awrite+design%3Acontent%3Aread+design%3Acontent%3Awrite+design%3Ameta%3Aread+folder%3Aread+folder%3Awrite+profile%3Aread&code_challenge=FT2zlR2sAHVrK2-O8jhGvvNPCuTHSSOjgsht8aU0KIk&code_challenge_method=S256")
  /\ authSessions (callTool env "s1" (Unlisted "no-such-tool") idle).2 = authSessions idle
  /\ sent (callTool env "s1" (Unlisted "no-such-tool") idle).2 = sent idle
  /\ tokenEndpoint (callTool env "s1" (Unlisted "no-such-tool") idle).2 = tokenEndpoint idle
  /\ canvaApi (callTool env "s1" (Unlisted "no-such-tool") idle).2 = canvaApi idle
  /\ drawn (callTool env "s1" (Unlisted "no-such-tool") idle).2 = (drawn idle + 48)%nat
  /\ pendingAuthStates (callTool env "s1" (Unlisted "no-such-tool") idle).2 =
       <["030a11181f262d343b424950575e656c" :=
           {| sessionId := "s1"; createdAt := 1000; codeVerifier := Cases.verifier |}]>
         (pendingAuthStates idle)
  /\ size (pendingAuthStates (callTool env "s1" (Unlisted "no-such-tool") idle).2) =
       S (size (pendingAuthStates idle)).
Proof.
  destruct (callTool_unauthenticated env "s1" (Unlisted "no-such-tool") idle eq_refl)
    as (Htext & _ & _ & Hsessions & Hsent & Htoken & Hapi & Hdrawn & Hpending & Hcreated).
  split; [split; reflexivity |].
  split; [rewrite Htext; vm_compute; reflexivity |].
  split; [exact Hsessions |]. split; [exact Hsent |].
  split; [exact Htoken |]. split; [exact Hapi |]. split; [exact Hdrawn |].
  split; [rewrite Hpending; vm_compute; reflexivity |].
  apply Hcreated. reflexivity.
Defined.

(** X3 at work. *)
Lemma authorization_url_names_pending_entry_run :
  authSessions Cases.fresh !! "s1" = None
  /\ exists token verifier,
       String.length token = 32%nat
       /\ allBytes isHexDigit token = true
       /\ pendingAuthStates (callTool env "s1" (Accepted (GetDesign "D1")) Cases.fresh).2 !! token =
            Some {| sessionId := "s1"; createdAt := now Cases.fresh; codeVerifier := verifier |}
       /\ (callTool env "s1" (Accepted (GetDesign "D1")) Cases.fresh).1 =
            Ok (TextContent
                  ("Please authenticate with Canva to use this feature. Visit: "
                   +:+ "https://www.canva.com/api/oauth/authorize?client_id="
                   +:+ Node.formEncode (CANVA_CLIENT_ID env)
                   +:+ "&response_type=code&redirect_uri="
                   +:+ Node.formEncode (CANVA_REDIRECT_URI env)
                   +:+ "&state=" +:+ token
                   +:+ "&scope=asset%3Aread+asset%3Awrite+comment%3Aread+comment%3Awrite+design%3Acontent%3Aread+design%3Acontent%3Awrite+design%3Ameta%3Aread+folder%3Aread+folder%3Awrite+profile%3Aread&code_challenge="
                   +:+ generateCodeChallenge verifier
                   +:+ "&code_challenge_method=S256")).
Proof.
  split; [reflexivity |].
  apply (authorization_url_names_pending_entry env "s1" (Accepted (GetDesign "D1")) Cases.fresh).
  reflexivity.
Defined.

(** X5 at work: prompt, then the redirect with the state of the prompt. *)
Lemma sign_in_flow_run :
  (authSessions Cases.fresh !! "s1" = None
   /\ presents Cases.redirected "c0de" (Node.toHex (upcoming Cases.fresh 0 16))
   /\ exchangeCodeForToken env "c0de" (Node.toBase64url (upcoming Cases.fresh 16 32))
        (callTool env "s1" (Accepted (GetDesign "D1")) Cases.fresh).2 =
        (Ok granted,
         tokenSettled (exchangeRequest env "c0de" Cases.verifier)
           (callTool env "s1" (Accepted (GetDesign "D1")) Cases.fresh).2))
  /\ (handleAuthCallback env Cases.redirected
        (callTool env "s1" (Accepted (GetDesign "D1")) Cases.fresh).2).1 =
       Ok {| statusCode := 200; page := ConnectedPage |}
  /\ sent (handleAuthCallback env Cases.redirected
             (callTool env "s1" (Accepted (GetDesign "D1")) Cases.fresh).2).2 =
       [exchangeRequest env "c0de" Cases.verifier]
  /\ authSessions (handleAuthCallback env Cases.redirected
                     (callTool env "s1" (Accepted (GetDesign "D1")) Cases.fresh).2).2 !! "s1" =
       Some {| accessToken := "A"; refreshToken := Some "R"; expiresAt := 1250 + 3600 * 1000 |}
  /\ pendingAuthStates (handleAuthCallback env Cases.redirected
                          (callTool env "s1" (Accepted (GetDesign "D1")) Cases.fresh).2).2
       !! Cases.stateToken = None.
Proof.
  assert (Hquery : presents Cases.redirected "c0de" (Node.toHex (upcoming Cases.fresh 0 16)))
    by (vm_compute; repeat split).
  assert (Hexchange :
            exchangeCodeForToken env "c0de" (Node.toBase64url (upcoming Cases.fresh 16 32))
              (callTool env "s1" (Accepted (GetDesign "D1")) Cases.fresh).2 =
            (Ok granted,
             tokenSettled (exchangeRequest env "c0de" Cases.verifier)
               (callTool env "s1" (Accepted (GetDesign "D1")) Cases.fresh).2))
    by (vm_compute; reflexivity).
  split; [split; [reflexivity | split; assumption] |].
  destruct (sign_in_flow env "s1" (Accepted (GetDesign "D1")) Cases.redirected "c0de" granted
              Cases.fresh
              (callTool env "s1" (Accepted (GetDesign "D1")) Cases.fresh).2
              (tokenSettled (exchangeRequest env "c0de" Cases.verifier)
                 (callTool env "s1" (Accepted (GetDesign "D1")) Cases.fresh).2)
              eq_refl eq_refl Hquery Hexchange)
    as (Hreply & Hsent & Hstored & Hgone & _).
  split; [exact Hreply |]. split; [exact Hsent |]. split; [exact Hstored | exact Hgone].
Defined.

(** X6 at work: the provider reports [access_denied]; the entry [abc]
    stays although the state would have been found. *)
Lemma refused_callback_touches_nothing_run :
  truthyString (error Cases.denied) <> None
  /\ exists answer,
       handleAuthCallback env Cases.denied (awaiting 700000 [grantAR]) =
       (Ok {| statusCode := 400; page := answer |}, awaiting 700000 [grantAR]).
Proof.
  split; [discriminate |].
  apply (refused_callback_touches_nothing env Cases.denied (awaiting 700000 [grantAR])).
  left. discriminate.
Defined.

(** X8 at work: of three pending authorizations the callback finds
    the first; the second, older than ten minutes, is swept, the third
    stays as it was. *)
Lemma found_callback_sweeps_registry_run :
  (presents Cases.arrival "c0de" "st1"
   /\ pendingAuthStates Cases.crowded !! "st1" = Some Cases.waiting1)
  /\ pendingAuthStates Cases.crowded !! "st2" = Some Cases.stale2
  /\ pendingAuthStates (handleAuthCallback env Cases.arrival Cases.crowded).2 !! "st2" = None
  /\ pendingAuthStates Cases.crowded !! "st3" = Some Cases.waiting3
  /\ pendingAuthStates (handleAuthCallback env Cases.arrival Cases.crowded).2 !! "st3" =
       Some Cases.waiting3.
Proof.
  assert (Hquery : presents Cases.arrival "c0de" "st1") by (repeat split).
  destruct (found_callback_sweeps_registry env Cases.arrival "c0de" "st1" Cases.waiting1
              Cases.crowded Hquery eq_refl) as [Honly Hkept].
  split; [split; [exact Hquery | reflexivity] |].
  split; [reflexivity |].
  split; [| split; [reflexivity |]].
  - destruct (pendingAuthStates (handleAuthCallback env Cases.arrival Cases.crowded).2 !! "st2")
      as [entry|] eqn:Hentry; [| reflexivity].
    exfalso. destruct (Honly "st2" entry Hentry) as [Hwas Hyoung].
    change (Some Cases.stale2 = Some entry) in Hwas. injection Hwas as <-.
    apply Hyoung. reflexivity.
  - apply Hkept; [discriminate | reflexivity | vm_compute; discriminate].
Defined.

(** X9 at work: the callback signs in [s1]; the record that [s2] has
    in the store is the same before and after. *)
Lemma callback_touches_one_session_run :
  (presents Cases.arrival "c0de" "st1"
   /\ pendingAuthStates Cases.crowded !! "st1" = Some Cases.waiting1
   /\ "s2" <> sessionId Cases.waiting1)
  /\ authSessions Cases.crowded !! "s2" = Some (s1 9000000)
  /\ authSessions (handleAuthCallback env Cases.arrival Cases.crowded).2 !! "s2" =
       Some (s1 9000000)
  /\ authSessions (handleAuthCallback env Cases.arrival Cases.crowded).2 !! "s1" =
       Some {| accessToken := "A"; refreshToken := Some "R"; expiresAt := 700250 + 3600 * 1000 |}.
Proof.
  assert (Hquery : presents Cases.arrival "c0de" "st1") by (repeat split).
  assert (Hother : "s2" <> sessionId Cases.waiting1) by discriminate.
  split; [split; [exact Hquery | split; [reflexivity | exact Hother]] |].
  split; [reflexivity |].
  split; [| vm_compute; reflexivity].
  rewrite (callback_touches_one_session env Cases.arrival "c0de" "st1" Cases.waiting1 "s2"
             Cases.crowded Hquery eq_refl Hother).
  reflexivity.
Defined.

(** X10 at work: the grant of an hour is reused. *)
Lemma refreshed_token_is_reused_run :
  (authSessions (signedIn 240000 [grantA2] []) !! "s1" = Some (s1 240000)
   /\ expiresAt (s1 240000) - now (signedIn 240000 [grantA2] []) <= bufferMs
   /\ refreshAccessToken env (refreshToken (s1 240000)) (signedIn 240000 [grantA2] []) =
        (Ok renewed, tokenSettled (refreshRequest env (Some "R")) (signedIn 240000 [grantA2] []))
   /\ bufferMs < expires_in renewed * 1000)
  /\ getValidAccessToken env "s1" (getValidAccessToken env "s1" (signedIn 240000 [grantA2] [])).2 =
       (Ok "A2", (getValidAccessToken env "s1" (signedIn 240000 [grantA2] [])).2).
Proof.
  split;
    [split; [reflexivity | split; [vm_compute; discriminate | split; reflexivity]] |].
  apply (refreshed_token_is_reused env "s1" (s1 240000) renewed (signedIn 240000 [grantA2] [])
           (tokenSettled (refreshRequest env (Some "R")) (signedIn 240000 [grantA2] [])));
    [reflexivity | vm_compute; discriminate | reflexivity | reflexivity].
Defined.

(** X11 at work: the refresh succeeds, the API answers 403. *)
Lemma refresh_survives_api_failure_run :
  (authSessions (signedIn 240000 [grantA2] [forbidden]) !! "s1" = Some (s1 240000)
   /\ expiresAt (s1 240000) - now (signedIn 240000 [grantA2] [forbidden]) <= bufferMs
   /\ refreshAccessToken env (refreshToken (s1 240000)) (signedIn 240000 [grantA2] [forbidden]) =
        (Ok renewed,
         tokenSettled (refreshRequest env (Some "R")) (signedIn 240000 [grantA2] [forbidden])))
  /\ (callTool env "s1" (Accepted (GetDesign "D1")) (signedIn 240000 [grantA2] [forbidden])).1 =
       Throw "Canva API error: 403 missing scope"
  /\ authSessions
       (callTool env "s1" (Accepted (GetDesign "D1")) (signedIn 240000 [grantA2] [forbidden])).2 =
       <["s1" := {| accessToken := "A2"; refreshToken := Some "R"; expiresAt := 250 + 3600 * 1000 |}]>
         (authSessions (signedIn 240000 [grantA2] [forbidden])).
Proof.
  split; [split; [reflexivity | split; [vm_compute; discriminate | reflexivity]] |].
  split; [vm_compute; reflexivity |].
  apply (refresh_survives_api_failure env "s1" (s1 240000) (GetDesign "D1") renewed
           (signedIn 240000 [grantA2] [forbidden])
           (tokenSettled (refreshRequest env (Some "R")) (signedIn 240000 [grantA2] [forbidden])));
    [reflexivity | vm_compute; discriminate | reflexivity].
Defined.

(** X12 at work: ten minutes left, one request. *)
Lemma tool_call_request_budget_run :
  (authSessions (signedIn 600000 [] [noContent]) !! "s1" = Some (s1 600000)
   /\ bufferMs < expiresAt (s1 600000) - now (signedIn 600000 [] [noContent]))
  /\ sent (callTool env "s1" (Accepted (CommitEditingTransaction "T1"))
             (signedIn 600000 [] [noContent])).2 =
       sent (signedIn 600000 [] [noContent])
       ++ [apiRequest "A" "/designs/edit/T1/commit" "POST" None].
Proof.
  split; [split; reflexivity |].
  apply (tool_call_request_budget env "s1" (s1 600000) (CommitEditingTransaction "T1")
           (signedIn 600000 [] [noContent]) eq_refl).
  reflexivity.
Defined.

(** X14 at work. *)
Lemma callTool_touches_one_session_run :
  "s1" <> "s2"
  /\ authSessions (callTool env "s2" (Accepted (GetDesign "D1")) (signedIn 240000 [grantA2] [])).2
       !! "s1" = authSessions (signedIn 240000 [grantA2] []) !! "s1"
  /\ (is_Some (authSessions (signedIn 240000 [grantA2] []) !! "s2") ->
      pendingAuthStates
        (callTool env "s2" (Accepted (GetDesign "D1")) (signedIn 240000 [grantA2] [])).2 =
      pendingAuthStates (signedIn 240000 [grantA2] [])).
Proof.
  split; [discriminate |].
  apply (callTool_touches_one_session env "s2" "s1" (Accepted (GetDesign "D1"))
           (signedIn 240000 [grantA2] [])).
  discriminate.
Defined.

(** X17 at work: the editor's file is there but empty. *)
Lemma readWidgetHtml_direct_file_run :
  (existsSync Cases.disk "/srv/assets" = true
   /\ existsSync Cases.disk (pathJoin ["/srv/assets"; "canva-design-editor" +:+ ".html"]) = true)
  /\ readWidgetHtml Cases.disk "/srv/assets" "canva-design-editor" =
       Throw (widgetMissing "/srv/assets" "canva-design-editor").
Proof.
  split; [split; reflexivity |].
  rewrite (readWidgetHtml_direct_file Cases.disk "/srv/assets" "canva-design-editor"
             eq_refl eq_refl).
  reflexivity.
Defined.

(** X18 at work: of two builds whose names differ in U+FF5E and
    U+1F600 the first is read: its code unit FF5E comes after the
    surrogate D83D, although its bytes come before. *)
Lemma readWidgetHtml_latest_version_run :
  (existsSync Cases.glyphDisk "/srv/glyphs" = true
   /\ existsSync Cases.glyphDisk (pathJoin ["/srv/glyphs"; "canva-search-designs" +:+ ".html"])
        = false
   /\ readdirSync Cases.glyphDisk "/srv/glyphs" = Ok Cases.glyphBuilds
   /\ In Cases.smileyBuild Cases.glyphBuilds
   /\ isCandidate "canva-search-designs" Cases.smileyBuild = true)
  /\ String.leb Cases.tildeBuild Cases.smileyBuild = true
  /\ readWidgetHtml Cases.glyphDisk "/srv/glyphs" "canva-search-designs" = Ok "<div>tilde</div>".
Proof.
  split; [repeat split; right; right; left; reflexivity |].
  split; [reflexivity |].
  destruct (readWidgetHtml_latest_version Cases.glyphDisk "/srv/glyphs" "canva-search-designs"
              Cases.glyphBuilds eq_refl eq_refl eq_refl
              (ex_intro _ Cases.smileyBuild
                 (conj (or_intror (or_intror (or_introl eq_refl))) eq_refl)))
    as (chosen & Hin & Hcandidate & Hlast & Hread).
  pose proof (Hlast Cases.tildeBuild (or_introl eq_refl) eq_refl) as Htilde.
  destruct Hin as [<- | [<- | [<- | []]]].
  - rewrite Hread. reflexivity.
  - discriminate Hcandidate.
  - discriminate Htilde.
Defined.

(** The [return] of a case reads members of [data]: answered 204,
    [search-designs] throws a [TypeError] once its request has gone
    out, and so does [get-design] answered with an object without
    [design]; [commit-editing-transaction] reads nothing and returns. *)
Example member_read_of_missing_data :
  (callTool env "s1" (Accepted (SearchDesigns None None None None))
     (signedIn 600000 [] [noContent])).1 =
    Throw "Cannot read properties of null (reading 'items')"
  /\ length (sent (callTool env "s1" (Accepted (SearchDesigns None None None None))
                     (signedIn 600000 [] [noContent])).2) = 1%nat
  /\ (callTool env "s1" (Accepted (GetDesign "D1"))
        (signedIn 600000 [] [answers 80 200 "OK" "{}" (Ok (JObject []))])).1 =
       Throw "Cannot read properties of undefined (reading 'title')"
  /\ (callTool env "s1" (Accepted (CommitEditingTransaction "T1"))
        (signedIn 600000 [] [noContent])).1 =
       Ok (CaseReturn (CommitEditingTransaction "T1") JNull).
Proof. vm_compute. repeat split. Qed.

(** X19 at work: a URI that is not listed. *)
Lemma listed_resources_can_be_read_run :
  readResource (widgets "<a/>" "<b/>" "<c/>") "ui://widget/canva-search-designs.html" =
    Ok [ {| contentsUri := "ui://widget/canva-search-designs.html";
            contentsMimeType := "text/html+skybridge";
            contentsText := "<a/>";
            contentsMeta :=
              {| outputTemplate := "ui://widget/canva-search-designs.html";
                 toolInvocationInvoking := "Searching Canva";
                 toolInvocationInvoked := "Search complete";
                 widgetAccessible := true;
                 resultCanProduceWidget := true |} |} ]
  /\ readResource (widgets "<a/>" "<b/>" "<c/>") "ui://widget/unknown.html" =
       Throw "Unknown resource: ui://widget/unknown.html".
Proof.
  destruct (listed_resources_can_be_read "<a/>" "<b/>" "<c/>") as (Hread & Hunknown & _).
  split.
  - destruct (Hread _ (or_introl eq_refl)) as (widget & _ & _ & Hcontents).
    reflexivity.
  - apply Hunknown. intros r Hin.
    destruct Hin as [<- | [<- | [<- | []]]]; discriminate.
Defined.

End FurtherRuns.
